(** * Faster-Whisper service: upload endpoints and live microphone pipeline

    A shallow embedding of [main.py], [config.py] and
    [realtime_transcription.py].  External collaborators (the inference
    engine, the file system, the clock, the audio device) are not
    implemented here: their outcomes are supplied by an environment record
    of oracles, and every effect the code performs on them is recorded in
    an explicit world state. *)

From Stdlib Require Import String Ascii List ZArith QArith Qround Lia Bool.
From Stdlib Require Import DecimalString DecimalZ.
Import ListNotations.

Local Open Scope string_scope.
Local Open Scope Z_scope.

(** ** Python built-ins used by the sources *)

Module Py.

(** [int(x)] on a float: truncation toward zero.  Floats are modelled by
    rationals; the divisions and products the sources perform on the live
    pipeline's constants are exact in binary floating point. *)
Definition int (q : Q) : Z := Z.quot (Qnum q) (Zpos (Qden q)).

(** [str(n)] on an integer. *)
Definition str_int (n : Z) : string := NilEmpty.string_of_int (Z.to_int n).

(** [len(s)] *)
Definition len (s : string) : Z := Z.of_nat (String.length s).

(** [s[a:b]] for indices [0 <= a]. *)
Definition slice (s : string) (a b : Z) : string :=
  substring (Z.to_nat a) (Z.to_nat (b - a)) s.

(** [s[a:]] *)
Definition slice_from (s : string) (a : Z) : string := slice s a (len s).

(** [s.rfind(c)]: the highest index holding [c], or [-1]. *)
Fixpoint rfind_from (c : ascii) (s : string) (i acc : Z) : Z :=
  match s with
  | EmptyString => acc
  | String a s' => rfind_from c s' (i + 1) (if Ascii.eqb a c then i else acc)
  end.

Definition rfind (c : ascii) (s : string) : Z := rfind_from c s 0 (-1).

(** [s.lower()].  Strings are byte strings here; bytes outside [A-Z] are
    left alone.  None of the extensions the code compares against contains a
    letter that a non-ASCII code point lowers to, so membership in the
    allow-list is decided as in Python. *)
Definition lower_char (c : ascii) : ascii :=
  let n := N_of_ascii c in
  if ((65 <=? n) && (n <=? 90))%N then ascii_of_N (n + 32) else c.

Fixpoint lower (s : string) : string :=
  match s with
  | EmptyString => EmptyString
  | String c s' => String (lower_char c) (lower s')
  end.

(** [s.strip()]: ASCII white space (tab, line feed, vertical tab, form
    feed, carriage return, the separators 28-31, space) removed at both
    ends. *)
Definition is_space (c : ascii) : bool :=
  let n := N_of_ascii c in
  (((9 <=? n) && (n <=? 13)) || ((28 <=? n) && (n <=? 32)))%N.

Fixpoint lstrip (s : string) : string :=
  match s with
  | EmptyString => EmptyString
  | String c s' => if is_space c then lstrip s' else s
  end.

Fixpoint rstrip (s : string) : string :=
  match s with
  | EmptyString => EmptyString
  | String c s' =>
      match rstrip s' with
      | EmptyString => if is_space c then EmptyString else String c EmptyString
      | r => String c r
      end
  end.

Definition strip (s : string) : string := rstrip (lstrip s).

(** [sep.join(l)] *)
Definition join (sep : string) (l : list string) : string := String.concat sep l.

(** [x in l] on a list of strings. *)
Definition contains (l : list string) (x : string) : bool :=
  existsb (String.eqb x) l.

(** [os.path.splitext] (posixpath): the extension starts at the last dot of
    the last path component, leading dots of that component not counted. *)
Fixpoint has_non_dot (p : string) (filenameIndex : Z) (n : nat) : bool :=
  match n with
  | O => false
  | S n' =>
      if negb (String.eqb (slice p filenameIndex (filenameIndex + 1)) ".")
      then true
      else has_non_dot p (filenameIndex + 1) n'
  end.

Definition splitext (p : string) : string * string :=
  let sepIndex := rfind "/"%char p in
  let dotIndex := rfind "."%char p in
  if (sepIndex <? dotIndex)
     && has_non_dot p (sepIndex + 1) (Z.to_nat (dotIndex - (sepIndex + 1)))
  then (slice p 0 dotIndex, slice_from p dotIndex)
  else (p, slice p 0 0).

End Py.

(** ** config.py *)

Module Config.

(** The class attributes the other modules read.  [MAX_FILE_SIZE] is
    [int(os.getenv("MAX_FILE_SIZE", "100")) * 1024 * 1024]; the argument is the
    parsed environment value when the variable is set. *)
Record t := {
  MAX_FILE_SIZE : Z;
  DEFAULT_BEAM_SIZE : Z;
  DEFAULT_VAD_FILTER : bool;
  DEFAULT_WORD_TIMESTAMPS : bool;
  DEFAULT_LANGUAGE : string;
  ALLOWED_EXTENSIONS : list string
}.

Definition getenv_int (value : option Z) (default : Z) : Z :=
  match value with Some v => v | None => default end.

Definition getenv_str (value : option string) (default : string) : string :=
  match value with Some v => v | None => default end.

Definition base (max_file_size : option Z) (default_language : option string) : t :=
  {| MAX_FILE_SIZE := getenv_int max_file_size 100 * 1024 * 1024;
     DEFAULT_BEAM_SIZE := 1;
     DEFAULT_VAD_FILTER := true;
     DEFAULT_WORD_TIMESTAMPS := false;
     DEFAULT_LANGUAGE := getenv_str default_language "pt";
     ALLOWED_EXTENSIONS := [".mp3"; ".wav"; ".m4a"; ".ogg"; ".flac"; ".aac"] |}.

Definition with_max_file_size (c : t) (m : Z) : t :=
  {| MAX_FILE_SIZE := m;
     DEFAULT_BEAM_SIZE := DEFAULT_BEAM_SIZE c;
     DEFAULT_VAD_FILTER := DEFAULT_VAD_FILTER c;
     DEFAULT_WORD_TIMESTAMPS := DEFAULT_WORD_TIMESTAMPS c;
     DEFAULT_LANGUAGE := DEFAULT_LANGUAGE c;
     ALLOWED_EXTENSIONS := ALLOWED_EXTENSIONS c |}.

Definition DevelopmentConfig mfs lang : t := base mfs lang.
Definition ProductionConfig mfs lang : t :=
  with_max_file_size (base mfs lang) (50 * 1024 * 1024).
Definition TestConfig mfs lang : t :=
  with_max_file_size (base mfs lang) (10 * 1024 * 1024).

(** [get_config()], on the lowered value of [ENVIRONMENT]. *)
Definition get_config (environment : option string)
           (mfs : option Z) (lang : option string) : t :=
  let env := Py.lower (getenv_str environment "development") in
  if String.eqb env "production" then ProductionConfig mfs lang
  else if String.eqb env "test" then TestConfig mfs lang
  else DevelopmentConfig mfs lang.

(** The configuration of a process started with no environment variable set. *)
Definition config : t := get_config None None None.

End Config.

(** ** Exceptions and world state *)

Abbreviation bytes := (list Byte.byte) (only parsing).

(** Exceptions that are instances of [Exception].  [HTTPException] is
    FastAPI's; every other exception is kept by its [str()] text. *)
Inductive exn :=
| HTTPException (status_code : Z) (detail : string)
| Exception (msg : string).

(** [str(e)]: Starlette prints an [HTTPException] as [status: detail]. *)
Definition str_exn (e : exn) : string :=
  match e with
  | HTTPException c d => Py.str_int c ++ ": " ++ d
  | Exception m => m
  end.

Inductive res (A : Type) :=
| Ok (a : A)
| Raise (e : exn).
Arguments Ok {A} a.
Arguments Raise {A} e.

(** Options of one engine call ([beam_size], [language], [word_timestamps],
    [vad_filter]). *)
Record TranscriptionOptions := {
  beam_size : Z;
  language : option string;
  word_timestamps : bool;
  vad_filter : bool
}.

Inductive level := INFO | ERROR.

(** What the code does to its collaborators, in the order it does it. *)
Inductive Event :=
| EvCreate (path : string)                       (* a temporary file came to exist *)
| EvWrite (path : string) (content : bytes)      (* payload written to it *)
| EvTranscribe (path : string) (o : TranscriptionOptions) (* engine invoked *)
| EvUnlink (path : string)                       (* file deleted *)
| EvUnlinkFailed (path : string)                 (* deletion raised *)
| EvLog (l : level) (msg : string)               (* logger.info / logger.error *)
| EvPrint (line : string).                       (* print to the console *)

Record World := {
  fs : list (string * bytes);   (* files the code created and has not deleted *)
  trace : list Event
}.

Definition emit (e : Event) (w : World) : World :=
  {| fs := fs w; trace := trace w ++ [e] |}.

Definition exists_file (p : string) (w : World) : bool :=
  existsb (fun f => String.eqb (fst f) p) (fs w).

Definition remove_file (p : string) (w : World) : World :=
  {| fs := filter (fun f => negb (String.eqb (fst f) p)) (fs w);
     trace := trace w ++ [EvUnlink p] |}.

Definition create_file (p : string) (w : World) : World :=
  {| fs := (p, []) :: filter (fun f => negb (String.eqb (fst f) p)) (fs w);
     trace := trace w ++ [EvCreate p] |}.

Definition write_file (p : string) (c : bytes) (w : World) : World :=
  {| fs := (p, c) :: filter (fun f => negb (String.eqb (fst f) p)) (fs w);
     trace := trace w ++ [EvWrite p c] |}.

(** Engine results. *)
Record Word := {
  w_start : Q; w_end : Q; w_word : string; w_probability : Q
}.

Record Segment := {
  seg_start : Q; seg_end : Q; seg_text : string;
  seg_words : option (list Word)     (* [None] unless word timestamps were asked *)
}.

Record TranscriptionInfo := {
  info_language : string;
  info_language_probability : Q
}.

(** Outcomes of the external calls, each allowed to depend on everything
    that happened before (the world carries the trace). *)
Record Env := {
  (* tempfile.NamedTemporaryFile(delete=False, suffix=...): the name it picked *)
  NamedTemporaryFile : World -> string -> res string;
  (* temp_file.write(content) *)
  write_error : World -> string -> bytes -> option exn;
  (* model.transcribe(path, ...) with its segment generator run to the end *)
  model_transcribe : World -> string -> TranscriptionOptions ->
                     res (list Segment * TranscriptionInfo);
  (* os.unlink / os.remove on a file that exists *)
  unlink_error : World -> string -> option exn;
  (* time.time() and time.strftime("%H:%M:%S") *)
  time_time : World -> Q;
  time_strftime : World -> string;
  (* wave.open(path, 'wb') and wf.writeframes(data) *)
  wave_open_error : World -> string -> option exn;
  writeframes_error : World -> string -> bytes -> option exn
}.

(** [os.unlink(p)] / [os.remove(p)]. *)
Definition os_unlink (env : Env) (p : string) (w : World) : res unit * World :=
  if exists_file p w then
    match unlink_error env w p with
    | Some e => (Raise e, emit (EvUnlinkFailed p) w)
    | None => (Ok tt, remove_file p w)
    end
  else (Raise (Exception ("[Errno 2] No such file or directory: '" ++ p ++ "'")), w).

(** ** main.py *)

Module Main.

(** Starlette's [UploadFile]: the declared filename and what
    [await file.read()] gives. *)
Record UploadFile := {
  filename : option string;
  read : res bytes
}.

(** One entry of [segments_list]; ["words"] is present only when word
    timestamps were requested. *)
Record SegmentDict := {
  sd_start : Q; sd_end : Q; sd_text : string;
  sd_words : option (list Word)
}.

Record TranscriptionResponse := {
  text : string;
  resp_language : string;
  language_probability : Q;
  segments : list SegmentDict
}.

(** The declared parameter defaults of [transcribe_audio]. *)
Definition default_options : TranscriptionOptions :=
  {| beam_size := 5; language := None; word_timestamps := false; vad_filter := true |}.

Definition allowed_extensions : list string :=
  [".mp3"; ".wav"; ".m4a"; ".ogg"; ".flac"; ".aac"].

Definition no_file_error : exn :=
  HTTPException 400 "Nenhum arquivo enviado".

Definition unsupported_format_error : exn :=
  HTTPException 400
    ("Formato de arquivo não suportado. Formatos aceitos: "
       ++ Py.join ", " allowed_extensions).

(** [file_extension = os.path.splitext(file.filename)[1].lower()] *)
Definition file_extension (name : string) : string :=
  Py.lower (snd (Py.splitext name)).

(** The [for segment in segments] loop. *)
Fixpoint convert_segments (wt : bool) (segs : list Segment)
         (segments_list : list SegmentDict) (full_text : string)
  : res (list SegmentDict * string) :=
  match segs with
  | [] => Ok (segments_list, full_text)
  | segment :: rest =>
      let plain := {| sd_start := seg_start segment; sd_end := seg_end segment;
                      sd_text := seg_text segment; sd_words := None |} in
      if wt then
        match seg_words segment with
        | None => Raise (Exception "'NoneType' object is not iterable")
        | Some ws =>
            convert_segments wt rest
              (segments_list
                 ++ [{| sd_start := seg_start segment; sd_end := seg_end segment;
                        sd_text := seg_text segment; sd_words := Some ws |}])
              (full_text ++ seg_text segment)
        end
      else
        convert_segments wt rest (segments_list ++ [plain])
                         (full_text ++ seg_text segment)
  end.

(** The body of the [try], with the one local the handler looks at:
    [temp_file_path] is bound only once the [with] block has written the
    payload. *)
Definition try_block (env : Env) (file : UploadFile) (name : string)
           (o : TranscriptionOptions) (ext : string) (w : World)
  : option string * res TranscriptionResponse * World :=
  match NamedTemporaryFile env w ext with
  | Raise e => (None, Raise e, w)
  | Ok temp_name =>
      let w := create_file temp_name w in
      match read file with
      | Raise e => (None, Raise e, w)
      | Ok content =>
          match write_error env w temp_name content with
          | Some e => (None, Raise e, w)
          | None =>
              let w := write_file temp_name content w in
              let temp_file_path := temp_name in
              let w := emit (EvLog INFO ("Transcrevendo arquivo: " ++ name)) w in
              let w := emit (EvTranscribe temp_file_path o) w in
              match model_transcribe env w temp_file_path o with
              | Raise e => (Some temp_file_path, Raise e, w)
              | Ok (segs, info) =>
                  match convert_segments (word_timestamps o) segs [] "" with
                  | Raise e => (Some temp_file_path, Raise e, w)
                  | Ok (segments_list, full_text) =>
                      match os_unlink env temp_file_path w with
                      | (Raise e, w) => (Some temp_file_path, Raise e, w)
                      | (Ok _, w) =>
                          let w :=
                            emit (EvLog INFO
                                    ("Transcrição concluída. Idioma detectado: "
                                       ++ info_language info)) w in
                          (Some temp_file_path,
                           Ok {| text := Py.strip full_text;
                                 resp_language := info_language info;
                                 language_probability := info_language_probability info;
                                 segments := segments_list |},
                           w)
                      end
                  end
              end
          end
      end
  end.

(** [POST /transcribe] *)
Definition transcribe_audio (env : Env) (file : UploadFile)
           (o : TranscriptionOptions) (w : World)
  : res TranscriptionResponse * World :=
  match filename file with
  | None => (Raise no_file_error, w)
  | Some name =>
      if String.eqb name "" then (Raise no_file_error, w)
      else
        let ext := file_extension name in
        if negb (Py.contains allowed_extensions ext)
        then (Raise unsupported_format_error, w)
        else
          match try_block env file name o ext w with
          | (_, Ok r, w) => (Ok r, w)
          | (temp_file_path, Raise e, w) =>
              (* except Exception as e *)
              let w :=
                match temp_file_path with
                | Some p => snd (os_unlink env p w)   (* try: ... except: pass *)
                | None => w
                end in
              let w := emit (EvLog ERROR ("Erro na transcrição: " ++ str_exn e)) w in
              (Raise (HTTPException 500 ("Erro na transcrição: " ++ str_exn e)), w)
          end
  end.

(** One element of the batch's [results]. *)
Record BatchItem := {
  item_filename : option string;
  success : bool;
  transcription : option TranscriptionResponse;
  error : option string
}.

Definition batch_item (file : UploadFile) (r : res TranscriptionResponse) : BatchItem :=
  match r with
  | Ok result =>
      {| item_filename := filename file; success := true;
         transcription := Some result; error := None |}
  | Raise e =>
      {| item_filename := filename file; success := false;
         transcription := None; error := Some (str_exn e) |}
  end.

(** The [for file in files] loop of [transcribe_batch]. *)
Fixpoint batch_loop (env : Env) (files : list UploadFile)
         (results : list BatchItem) (w : World) : list BatchItem * World :=
  match files with
  | [] => (results, w)
  | file :: rest =>
      let (r, w) := transcribe_audio env file default_options w in
      batch_loop env rest (results ++ [batch_item file r]) w
  end.

(** [POST /transcribe-batch] *)
Definition transcribe_batch (env : Env) (files : list UploadFile) (w : World)
  : list BatchItem * World :=
  batch_loop env files [] w.


End Main.

(** ** realtime_transcription.py *)

Module Realtime.

Definition CHANNELS : Z := 1.
Definition RATE : Z := 16000.
Definition CHUNK : Z := 1024.
Definition RECORD_SECONDS : Z := 3.

(** One buffer returned by [stream.read(CHUNK)], and one queue element (the
    copied [frames] list). *)
Abbreviation frame := bytes (only parsing).
Abbreviation chunk := (list frame) (only parsing).

(** [frames_per_chunk = int(self.RATE / self.CHUNK * self.RECORD_SECONDS)] *)
Definition frames_per_chunk_of (rate chunk_size seconds : Z) : Z :=
  Py.int (inject_Z rate / inject_Z chunk_size * inject_Z seconds)%Q.

Definition frames_per_chunk : Z := frames_per_chunk_of RATE CHUNK RECORD_SECONDS.

Inductive Stream := StreamOpen | StreamClosed.

(** The attributes of a [RealTimeTranscriber] that the threads share.
    [stream] is [None] until [start_recording] has assigned the attribute. *)
Record RealTimeTranscriber := {
  is_recording : bool;
  is_transcribing : bool;
  stream : option Stream;
  audio_queue : list chunk;
  audio_terminated : bool
}.

(** [__init__] *)
Definition init : RealTimeTranscriber :=
  {| is_recording := false; is_transcribing := false; stream := None;
     audio_queue := []; audio_terminated := false |}.

Definition set_is_recording (b : bool) (s : RealTimeTranscriber) :=
  {| is_recording := b; is_transcribing := is_transcribing s; stream := stream s;
     audio_queue := audio_queue s; audio_terminated := audio_terminated s |}.

Definition set_is_transcribing (b : bool) (s : RealTimeTranscriber) :=
  {| is_recording := is_recording s; is_transcribing := b; stream := stream s;
     audio_queue := audio_queue s; audio_terminated := audio_terminated s |}.

Definition set_stream (st : Stream) (s : RealTimeTranscriber) :=
  {| is_recording := is_recording s; is_transcribing := is_transcribing s;
     stream := Some st; audio_queue := audio_queue s;
     audio_terminated := audio_terminated s |}.

Definition set_audio_queue (q : list chunk) (s : RealTimeTranscriber) :=
  {| is_recording := is_recording s; is_transcribing := is_transcribing s;
     stream := stream s; audio_queue := q;
     audio_terminated := audio_terminated s |}.

Definition terminate (s : RealTimeTranscriber) :=
  {| is_recording := is_recording s; is_transcribing := is_transcribing s;
     stream := stream s; audio_queue := audio_queue s;
     audio_terminated := true |}.

(** Reading the attribute [self.stream]. *)
Definition getattr_stream (s : RealTimeTranscriber) : res Stream :=
  match stream s with
  | Some st => Ok st
  | None =>
      Raise (Exception "'RealTimeTranscriber' object has no attribute 'stream'")
  end.

Definition hasattr_stream (s : RealTimeTranscriber) : bool :=
  match stream s with Some _ => true | None => false end.

(** [start_recording], up to the spawning of the two threads; [open_error]
    is the outcome of [self.audio.open]. *)
Definition start_recording (open_error : option exn)
           (self : RealTimeTranscriber) (w : World)
  : res RealTimeTranscriber * World :=
  match open_error with
  | Some e => (Raise e, emit (EvLog ERROR ("Erro ao iniciar gravação: " ++ str_exn e)) w)
  | None =>
      let self := set_stream StreamOpen self in
      let self := set_is_recording true self in
      (Ok self, emit (EvLog INFO "Gravação iniciada. Fale no microfone...") w)
  end.

(** [stop_recording].  The device calls ([stop_stream], [close],
    [terminate]) are taken not to raise. *)
Definition stop_recording (self : RealTimeTranscriber) (w : World)
  : res RealTimeTranscriber * World :=
  let self := set_is_recording false self in
  let self := set_is_transcribing false self in
  let closed :=
    if hasattr_stream self then
      match getattr_stream self with
      | Ok _ => Ok (set_stream StreamClosed self)   (* stop_stream(); close() *)
      | Raise e => Raise e
      end
    else Ok self in
  match closed with
  | Raise e => (Raise e, w)
  | Ok self =>
      let self := terminate self in
      (Ok self, emit (EvLog INFO "Gravação interrompida.") w)
  end.

(** *** The capture thread, [_record_audio]

    The thread is run one statement group at a time so that other threads
    can be scheduled in between: the loop test, the blocking device read,
    and the bookkeeping that follows a read. *)
Inductive rec_pc :=
| AtWhile                    (* about to test [self.is_recording] *)
| AtRead                     (* about to call [self.stream.read] *)
| AtAppend (data : frame)    (* read returned, [frames.append] is next *)
| Finished.                  (* left the loop *)

(** Its locals. *)
Record Recorder := {
  pc : rec_pc;
  frames : list frame;
  chunk_count : Z
}.

Definition recorder_init : Recorder :=
  {| pc := AtWhile; frames := []; chunk_count := 0 |}.

Definition at_pc (p : rec_pc) (r : Recorder) : Recorder :=
  {| pc := p; frames := frames r; chunk_count := chunk_count r |}.

Definition CaptureState : Type := RealTimeTranscriber * Recorder * World.

(** [frames.append(data)] to the end of the [if]. *)
Definition append_frame (data : frame) (st : CaptureState) : CaptureState :=
  let '(self, r, w) := st in
  let frames := (frames r ++ [data])%list in
  let chunk_count := chunk_count r + 1 in
  if frames_per_chunk <=? chunk_count then
    (set_audio_queue (audio_queue self ++ [frames]) self,   (* put(frames.copy()) *)
     {| pc := AtWhile; frames := []; chunk_count := 0 |}, w)
  else
    (self, {| pc := AtWhile; frames := frames; chunk_count := chunk_count |}, w).

(** One scheduling slot of the capture thread; [dev] is what the device
    read gives if this slot performs it. *)
Definition capture_step (dev : res frame) (st : CaptureState) : CaptureState :=
  let '(self, r, w) := st in
  match pc r with
  | AtWhile =>
      if is_recording self then (self, at_pc AtRead r, w)
      else (self, at_pc Finished r, w)
  | AtRead =>
      match dev with
      | Ok data => (self, at_pc (AtAppend data) r, w)
      | Raise e =>
          (self, at_pc Finished r,
           emit (EvLog ERROR ("Erro na captura de áudio: " ++ str_exn e)) w)
      end
  | AtAppend data => append_frame data st
  | Finished => st
  end.

(** [_record_audio], run for as many scheduling slots as [devs] has entries,
    from wherever the thread stands. *)
Definition _record_audio (devs : list (res frame)) (st : CaptureState) : CaptureState :=
  fold_left (fun st dev => capture_step dev st) devs st.

(** One whole pass through the loop body with a successful read. *)
Definition capture_frame (st : CaptureState) (data : frame) : CaptureState :=
  capture_step (Ok data) (capture_step (Ok data) (capture_step (Ok data) st)).

(** The capture loop fed the frames [data] while nothing else runs. *)
Definition feed (data : list frame) (st : CaptureState) : CaptureState :=
  fold_left capture_frame data st.

(** Frames the capture loop has handed on: queued or in the accumulator. *)
Definition produced (self : RealTimeTranscriber) (r : Recorder) : nat :=
  length (concat (audio_queue self)) + length (frames r).

(** *** The worker thread, [_transcribe_audio] *)

Definition temp_filename (now : Q) : string :=
  "temp_chunk_" ++ Py.str_int (Py.int now) ++ ".wav".

Definition worker_options (cfg : Config.t) : TranscriptionOptions :=
  {| beam_size := Config.DEFAULT_BEAM_SIZE cfg;
     language := Some (Config.DEFAULT_LANGUAGE cfg);
     word_timestamps := Config.DEFAULT_WORD_TIMESTAMPS cfg;
     vad_filter := Config.DEFAULT_VAD_FILTER cfg |}.

(** The [try] body after a successful [get], up to [os.remove]. *)
Definition worker_try (env : Env) (cfg : Config.t) (temp : string)
           (frames : chunk) (w : World) : res unit * World :=
  match wave_open_error env w temp with
  | Some e => (Raise e, w)
  | None =>
      let w := create_file temp w in
      let data := concat frames in                       (* b''.join(frames) *)
      match writeframes_error env w temp data with
      | Some e => (Raise e, w)
      | None =>
          let w := write_file temp data w in
          let o := worker_options cfg in
          let w := emit (EvTranscribe temp o) w in
          match model_transcribe env w temp o with
          | Raise e => (Raise e, w)
          | Ok (segs, _) =>
              let text := String.concat "" (map seg_text segs) in
              let w :=
                if String.eqb (Py.strip text) "" then w
                else emit (EvPrint ("[" ++ time_strftime env w ++ "] "
                                        ++ Py.strip text)) w in
              os_unlink env temp w
          end
      end
  end.

(** One dequeued chunk: the [try] body and the [except Exception] handler.
    [Raise] here is an exception that left the handler. *)
Definition process_chunk (env : Env) (cfg : Config.t) (frames : chunk) (w : World)
  : res unit * World :=
  let temp := temp_filename (time_time env w) in
  match worker_try env cfg temp frames w with
  | (Ok _, w) => (Ok tt, w)
  | (Raise e, w) =>
      let w := emit (EvLog ERROR ("Erro na transcrição: " ++ str_exn e)) w in
      if exists_file temp w then os_unlink env temp w else (Ok tt, w)
  end.

Inductive worker_status :=
| Running                (* back at the loop test *)
| Exited                 (* the loop test failed *)
| Died (e : exn).        (* an exception left the function *)

Definition WorkerState : Type := RealTimeTranscriber * World.

(** The loop test. *)
Definition worker_continues (self : RealTimeTranscriber) : bool :=
  is_transcribing self || negb (match audio_queue self with [] => true | _ => false end).

(** The loop test and one pass through the body. *)
Definition worker_iteration (env : Env) (cfg : Config.t) (st : WorkerState)
  : worker_status * WorkerState :=
  let '(self, w) := st in
  if worker_continues self then
    match audio_queue self with
    | [] => (Running, st)                 (* get timed out: queue.Empty, continue *)
    | frames :: rest =>
        let self := set_audio_queue rest self in
        match process_chunk env cfg frames w with
        | (Ok _, w) => (Running, (self, w))
        | (Raise e, w) => (Died e, (self, w))
        end
    end
  else (Exited, st).

(** The loop for at most [fuel] passes, nothing else running meanwhile. *)
Fixpoint worker_loop (env : Env) (cfg : Config.t) (fuel : nat) (st : WorkerState)
  : worker_status * WorkerState :=
  match fuel with
  | O => (Running, st)
  | S fuel' =>
      match worker_iteration env cfg st with
      | (Running, st') => worker_loop env cfg fuel' st'
      | stopped => stopped
      end
  end.

(** [_transcribe_audio]: raise the flag, then loop. *)
Definition _transcribe_audio (env : Env) (cfg : Config.t) (fuel : nat)
           (st : WorkerState) : worker_status * WorkerState :=
  let '(self, w) := st in
  worker_loop env cfg fuel (set_is_transcribing true self, w).

End Realtime.

(** ** config.py: model, device and thread settings *)

Module Settings.

(** The environment variables the class bodies read, with the integer ones
    already parsed. *)
Record Environ := {
  ENVIRONMENT : option string;
  env_WHISPER_MODEL : option string;
  env_WHISPER_DEVICE : option string;
  env_WHISPER_COMPUTE_TYPE : option string;
  env_OMP_NUM_THREADS : option Z;
  env_MAX_FILE_SIZE : option Z;
  env_DEFAULT_LANGUAGE : option string
}.

(** The class attributes that [validate_config], [get_model_info] and the
    health check read. *)
Record t := {
  WHISPER_MODEL : string;
  WHISPER_DEVICE : string;
  WHISPER_COMPUTE_TYPE : string;
  OMP_NUM_THREADS : Z
}.

(** [class Config] *)
Definition base (e : Environ) : t :=
  {| WHISPER_MODEL := Config.getenv_str (env_WHISPER_MODEL e) "base";
     WHISPER_DEVICE := Config.getenv_str (env_WHISPER_DEVICE e) "cpu";
     WHISPER_COMPUTE_TYPE := Config.getenv_str (env_WHISPER_COMPUTE_TYPE e) "int8";
     OMP_NUM_THREADS := Config.getenv_int (env_OMP_NUM_THREADS e) 16 |}.

Definition DevelopmentConfig (e : Environ) : t := base e.

Definition ProductionConfig (e : Environ) : t :=
  {| WHISPER_MODEL := WHISPER_MODEL (base e);
     WHISPER_DEVICE := WHISPER_DEVICE (base e);
     WHISPER_COMPUTE_TYPE := WHISPER_COMPUTE_TYPE (base e);
     OMP_NUM_THREADS := 2 |}.

Definition TestConfig (e : Environ) : t :=
  {| WHISPER_MODEL := "tiny";
     WHISPER_DEVICE := WHISPER_DEVICE (base e);
     WHISPER_COMPUTE_TYPE := WHISPER_COMPUTE_TYPE (base e);
     OMP_NUM_THREADS := OMP_NUM_THREADS (base e) |}.

(** [get_config()], for these attributes. *)
Definition get_config (e : Environ) : t :=
  let env := Py.lower (Config.getenv_str (ENVIRONMENT e) "development") in
  if String.eqb env "production" then ProductionConfig e
  else if String.eqb env "test" then TestConfig e
  else DevelopmentConfig e.


Record ModelInfo := {
  size : string;
  speed : string;
  quality : string
}.

Definition model_sizes : list (string * ModelInfo) :=
  [("tiny", {| size := "39 MB"; speed := "Muito rápido"; quality := "Básica" |});
   ("base", {| size := "74 MB"; speed := "Rápido"; quality := "Boa" |});
   ("small", {| size := "244 MB"; speed := "Médio"; quality := "Muito boa" |});
   ("medium", {| size := "769 MB"; speed := "Lento"; quality := "Excelente" |});
   ("large-v3", {| size := "1550 MB"; speed := "Muito lento"; quality := "Superior" |})].

Definition unknown_model : ModelInfo :=
  {| size := "Desconhecido"; speed := "Desconhecido"; quality := "Desconhecido" |}.

(** [d.get(k, default)] on a dict written as its list of items. *)
Fixpoint dict_get {A : Type} (d : list (string * A)) (k : string) (default : A) : A :=
  match d with
  | [] => default
  | (k', v) :: d' => if String.eqb k' k then v else dict_get d' k default
  end.

(** [get_model_info] *)
Definition get_model_info (c : t) : ModelInfo :=
  dict_get model_sizes (WHISPER_MODEL c) unknown_model.

Definition valid_models : list string :=
  ["tiny"; "base"; "small"; "medium"; "large-v3"; "distil-large-v3"].
Definition valid_devices : list string := ["cpu"; "cuda"].
Definition valid_compute_types : list string := ["int8"; "int16"; "float16"; "float32"].

(** How an f-string prints a list of plain ASCII strings. *)
Definition repr_list (l : list string) : string :=
  "[" ++ Py.join ", " (map (fun x => "'" ++ x ++ "'") l) ++ "]".

Record Validation := {
  valid : bool;
  issues : list string
}.

(** [validate_config] *)
Definition validate_config (c : t) : Validation :=
  let issues : list string := [] in
  let issues :=
    if negb (Py.contains valid_models (WHISPER_MODEL c))
    then (issues ++ [("Modelo inválido: " ++ WHISPER_MODEL c ++ ". Válidos: "
                        ++ repr_list valid_models)%string])%list
    else issues in
  let issues :=
    if negb (Py.contains valid_devices (WHISPER_DEVICE c))
    then (issues ++ [("Device inválido: " ++ WHISPER_DEVICE c ++ ". Válidos: "
                        ++ repr_list valid_devices)%string])%list
    else issues in
  let issues :=
    if negb (Py.contains valid_compute_types (WHISPER_COMPUTE_TYPE c))
    then (issues ++ [("Compute type inválido: " ++ WHISPER_COMPUTE_TYPE c
                        ++ ". Válidos: " ++ repr_list valid_compute_types)%string])%list
    else issues in
  let issues :=
    if (OMP_NUM_THREADS c <? 1) || (32 <? OMP_NUM_THREADS c)
    then (issues ++ [("Número de threads inválido: " ++ Py.str_int (OMP_NUM_THREADS c)
                        ++ ". Deve estar entre 1-32")%string])%list
    else issues in
  {| valid := Nat.eqb (List.length issues) 0; issues := issues |}.

End Settings.

(** ** main.py: start-up and health check *)

Module Api.

(** How the module-level code of [main.py] ends. *)
Inductive startup_result :=
| SystemExit (code : Z)       (* configuration refused *)
| LoadFailed (e : exn)        (* the [WhisperModel] constructor raised *)
| ModelLoaded.

(** The module-level statements from the first [logger.info] to
    ["Modelo carregado com sucesso!"]; [load_error] is the outcome of the
    [WhisperModel] constructor. *)
Definition startup (c : Settings.t) (load_error : option exn) (w : World)
  : startup_result * World :=
  let w := emit (EvLog INFO ("Carregando modelo Whisper: " ++ Settings.WHISPER_MODEL c)) w in
  let w := emit (EvLog INFO ("Device: " ++ Settings.WHISPER_DEVICE c
                               ++ ", Compute Type: " ++ Settings.WHISPER_COMPUTE_TYPE c)) w in
  let validation := Settings.validate_config c in
  if negb (Settings.valid validation) then
    let w := emit (EvLog ERROR "Configuração inválida:") w in
    let w := fold_left (fun w issue => emit (EvLog ERROR ("  - " ++ issue)) w)
                       (Settings.issues validation) w in
    (SystemExit 1, w)
  else
    match load_error with
    | Some e => (LoadFailed e, w)
    | None => (ModelLoaded, emit (EvLog INFO "Modelo carregado com sucesso!") w)
    end.



End Api.

(** ** Concrete environments and inputs used by the examples *)

Module Scenario.

Definition w0 : World := {| fs := []; trace := [] |}.

Definition hello : Segment :=
  {| seg_start := 0; seg_end := 1 # 2; seg_text := " ola"; seg_words := None |}.

Definition pt_info : TranscriptionInfo :=
  {| info_language := "pt"; info_language_probability := 9 # 10 |}.

(** Every external call succeeds; the clock advances by a hundredth of a
    second per recorded event, starting at 1730000000. *)
Definition env_ok : Env :=
  {| NamedTemporaryFile :=
       fun w suffix =>
         Ok ("/tmp/tmp" ++ Py.str_int (Z.of_nat (length (trace w))) ++ suffix);
     write_error := fun _ _ _ => None;
     model_transcribe := fun _ _ _ => Ok ([hello], pt_info);
     unlink_error := fun _ _ => None;
     time_time :=
       fun w => (inject_Z 1730000000 + inject_Z (Z.of_nat (length (trace w))) / 100)%Q;
     time_strftime := fun _ => "12:00:00";
     wave_open_error := fun _ _ => None;
     writeframes_error := fun _ _ _ => None |}.

(** As [env_ok], but deleting a file raises. *)
Definition env_unlink_fails : Env :=
  {| NamedTemporaryFile := NamedTemporaryFile env_ok;
     write_error := write_error env_ok;
     model_transcribe := model_transcribe env_ok;
     unlink_error := fun _ p => Some (Exception ("[Errno 13] Permission denied: '" ++ p ++ "'"));
     time_time := time_time env_ok;
     time_strftime := time_strftime env_ok;
     wave_open_error := wave_open_error env_ok;
     writeframes_error := writeframes_error env_ok |}.

(** As [env_unlink_fails], with an engine that also raises. *)
Definition env_engine_and_unlink_fail : Env :=
  {| NamedTemporaryFile := NamedTemporaryFile env_ok;
     write_error := write_error env_ok;
     model_transcribe := fun _ _ _ => Raise (Exception "Invalid data found when processing input");
     unlink_error := unlink_error env_unlink_fails;
     time_time := time_time env_ok;
     time_strftime := time_strftime env_ok;
     wave_open_error := wave_open_error env_ok;
     writeframes_error := writeframes_error env_ok |}.

(** The engine raises on the file whose payload is empty and succeeds on
    the others. *)
Definition env_engine_rejects_empty : Env :=
  {| NamedTemporaryFile := NamedTemporaryFile env_ok;
     write_error := write_error env_ok;
     model_transcribe :=
       fun w p _ =>
         match find (fun f => String.eqb (fst f) p) (fs w) with
         | Some (_, []) => Raise (Exception "Invalid data found when processing input")
         | _ => Ok ([hello], pt_info)
         end;
     unlink_error := unlink_error env_ok;
     time_time := time_time env_ok;
     time_strftime := time_strftime env_ok;
     wave_open_error := wave_open_error env_ok;
     writeframes_error := writeframes_error env_ok |}.

Definition upload (name : string) (payload : bytes) : Main.UploadFile :=
  {| Main.filename := Some name; Main.read := Ok payload |}.

Definition silence : Realtime.frame := [Byte.x00; Byte.x00].
Definition click : Realtime.frame := [Byte.xff; Byte.x7f].

(** A transcriber on which [start_recording] has succeeded. *)
Definition recording : Realtime.RealTimeTranscriber :=
  Realtime.set_is_recording true (Realtime.set_stream Realtime.StreamOpen Realtime.init).

(** A transcriber after [stop_recording], with [q] still queued. *)
Definition stopped_with (q : list Realtime.chunk) : Realtime.RealTimeTranscriber :=
  {| Realtime.is_recording := false; Realtime.is_transcribing := false;
     Realtime.stream := Some Realtime.StreamClosed;
     Realtime.audio_queue := q; Realtime.audio_terminated := true |}.

(** A payload of 100 MiB and one byte. *)
Definition big_payload : bytes := repeat Byte.x00 (N.to_nat 104857601).

End Scenario.

(** ** Further concrete inputs *)

Module Cases.

(** No environment variable set. *)
Definition no_environ : Settings.Environ :=
  {| Settings.ENVIRONMENT := None;
     Settings.env_WHISPER_MODEL := None;
     Settings.env_WHISPER_DEVICE := None;
     Settings.env_WHISPER_COMPUTE_TYPE := None;
     Settings.env_OMP_NUM_THREADS := None;
     Settings.env_MAX_FILE_SIZE := None;
     Settings.env_DEFAULT_LANGUAGE := None |}.

(** [ENVIRONMENT=Production], [OMP_NUM_THREADS=64], [WHISPER_DEVICE=tpu]. *)
Definition odd_environ : Settings.Environ :=
  {| Settings.ENVIRONMENT := Some "Production";
     Settings.env_WHISPER_MODEL := None;
     Settings.env_WHISPER_DEVICE := Some "tpu";
     Settings.env_WHISPER_COMPUTE_TYPE := None;
     Settings.env_OMP_NUM_THREADS := Some 64;
     Settings.env_MAX_FILE_SIZE := Some 7;
     Settings.env_DEFAULT_LANGUAGE := None |}.

(** An upload whose payload cannot be read. *)
Definition unreadable (name : string) : Main.UploadFile :=
  {| Main.filename := Some name;
     Main.read := Raise (Exception "connection reset by peer") |}.


(** As [Scenario.env_ok], with an engine that raises. *)
Definition env_engine_fails : Env :=
  {| NamedTemporaryFile := NamedTemporaryFile Scenario.env_ok;
     write_error := write_error Scenario.env_ok;
     model_transcribe :=
       fun _ _ _ => Raise (Exception "Invalid data found when processing input");
     unlink_error := unlink_error Scenario.env_ok;
     time_time := time_time Scenario.env_ok;
     time_strftime := time_strftime Scenario.env_ok;
     wave_open_error := wave_open_error Scenario.env_ok;
     writeframes_error := writeframes_error Scenario.env_ok |}.

End Cases.

Import Realtime.
Import Main.
Local Open Scope list_scope.

(** ** Predicates the properties are stated with *)

(** The accumulator between two passes of the capture loop. *)
Definition between_frames (r : Recorder) : Prop :=
  pc r = AtWhile
  /\ chunk_count r = Z.of_nat (length (frames r))
  /\ (length (frames r) < 46)%nat.

(** [occurs c s]: the character [c] appears in [s]. *)
Fixpoint occurs (c : ascii) (s : string) : bool :=
  match s with
  | EmptyString => false
  | String a s' => Ascii.eqb a c || occurs c s'
  end.

(** [calls_with o ev]: if [ev] is an engine call, its options are [o]. *)
Definition calls_with (o : TranscriptionOptions) (ev : Event) : Prop :=
  match ev with
  | EvTranscribe _ o' => o' = o
  | _ => True
  end.

(** [on_path p ev]: if [ev] is a file operation or an engine call, it is on
    the path [p]. *)
Definition on_path (p : option string) (ev : Event) : Prop :=
  match ev with
  | EvCreate q | EvWrite q _ | EvTranscribe q _ | EvUnlink q | EvUnlinkFailed q =>
      p = Some q
  | EvLog _ _ | EvPrint _ => True
  end.

Definition upload_event (o : TranscriptionOptions) (p : option string) (ev : Event) :=
  calls_with o ev /\ on_path p ev.

(** The name [NamedTemporaryFile] gives, if it gives one. *)
Definition named (env : Env) (w : World) (suffix : string) : option string :=
  match NamedTemporaryFile env w suffix with
  | Ok temp => Some temp
  | Raise _ => None
  end.

(** The path an upload is staged at, if it gets that far. *)
Definition upload_path (env : Env) (file : UploadFile) (w : World) : option string :=
  match filename file with
  | Some name => named env w (file_extension name)
  | None => None
  end.

(** [settles k n self r w]: whatever the device gives from now on, the
    capture thread hands on at most [k] more frames and has left its loop
    once it has been scheduled [n] times. *)
Definition settles (k n : nat) (self : RealTimeTranscriber) (r : Recorder) (w : World) :=
  forall devs,
  exists s' r' w',
    _record_audio devs (self, r, w) = (s', r', w')
    /\ (produced s' r' <= produced self r + k)%nat
    /\ (n <= length devs -> pc r' = Finished)%nat.


(** The accumulator of the capture thread, wherever the thread stands. *)
Definition accumulator_ok (r : Recorder) : Prop :=
  chunk_count r = Z.of_nat (length (frames r)) /\ (length (frames r) < 46)%nat.

(** What the worker may record while it handles the chunk staged at [temp]. *)
Inductive chunk_event (cfg : Config.t) (temp : string) : Event -> Prop :=
| ce_create : chunk_event cfg temp (EvCreate temp)
| ce_write data : chunk_event cfg temp (EvWrite temp data)
| ce_transcribe : chunk_event cfg temp (EvTranscribe temp (worker_options cfg))
| ce_print line : chunk_event cfg temp (EvPrint line)
| ce_log msg : chunk_event cfg temp (EvLog ERROR msg)
| ce_unlink : chunk_event cfg temp (EvUnlink temp)
| ce_unlink_failed : chunk_event cfg temp (EvUnlinkFailed temp).

(** The same, for some chunk file [temp_chunk_<n>.wav]. *)
Definition worker_event (cfg : Config.t) (ev : Event) : Prop :=
  exists now : Q, chunk_event cfg (temp_filename now) ev.


(** Removing the entries of one path from the file table. *)
Definition without (p : string) (files : list (string * bytes)) : list (string * bytes) :=
  filter (fun f => negb (String.eqb (fst f) p)) files.

(** * Properties *)

(** ** Chunk assembly *)

Lemma frames_per_chunk_value : frames_per_chunk = 46.
Proof. reflexivity. Qed.

Lemma frames_per_chunk_is_floor :
  frames_per_chunk = Qfloor (inject_Z RATE / inject_Z CHUNK * inject_Z RECORD_SECONDS).
Proof. reflexivity. Qed.

Lemma ceiling_value :
  Qceiling (inject_Z RATE / inject_Z CHUNK * inject_Z RECORD_SECONDS) = 47.
Proof. reflexivity. Qed.

Lemma between_frames_init : between_frames recorder_init.
Proof. repeat split; simpl; lia. Qed.

Lemma capture_frame_keeps self r w d :
  is_recording self = true -> between_frames r ->
  (length (frames r) < 45)%nat ->
  capture_frame (self, r, w) d
  = (self, {| pc := AtWhile; frames := frames r ++ [d];
              chunk_count := chunk_count r + 1 |}, w).
Proof.
  intros Hrec (Hpc & Hcc & Hlt) Hroom.
  unfold capture_frame, capture_step at 3. rewrite Hpc, Hrec.
  unfold capture_step at 2. cbn [pc at_pc].
  unfold capture_step. cbn [pc at_pc frames chunk_count append_frame].
  rewrite frames_per_chunk_value.
  destruct (46 <=? chunk_count r + 1) eqn:E; [apply Z.leb_le in E; lia | reflexivity].
Qed.

Lemma capture_frame_emits self r w d :
  is_recording self = true -> between_frames r ->
  length (frames r) = 45%nat ->
  capture_frame (self, r, w) d
  = (set_audio_queue (audio_queue self ++ [frames r ++ [d]]) self, recorder_init, w).
Proof.
  intros Hrec (Hpc & Hcc & Hlt) Hfull.
  unfold capture_frame, capture_step at 3. rewrite Hpc, Hrec.
  unfold capture_step at 2. cbn [pc at_pc].
  unfold capture_step. cbn [pc at_pc frames chunk_count append_frame].
  rewrite frames_per_chunk_value.
  destruct (46 <=? chunk_count r + 1) eqn:E; [reflexivity | apply Z.leb_gt in E; lia].
Qed.

Lemma feed_cons d data st : feed (d :: data) st = feed data (capture_frame st d).
Proof. reflexivity. Qed.

Lemma feed_invariant data : forall self r w,
  is_recording self = true -> between_frames r ->
  exists chunks r',
    feed data (self, r, w) = (set_audio_queue (audio_queue self ++ chunks) self, r', w)
    /\ between_frames r'
    /\ Forall (fun c => length c = 46%nat) chunks
    /\ concat chunks ++ frames r' = frames r ++ data.
Proof.
  induction data as [|d data IH]; intros self r w Hrec Hr.
  - exists [], r. rewrite !app_nil_r. split; [destruct self; reflexivity|].
    split; [exact Hr|]. split; [constructor | reflexivity].
  - rewrite feed_cons.
    destruct Hr as (Hpc & Hcc & Hlt).
    destruct (Nat.eq_dec (length (frames r)) 45) as [Hfull|Hroom].
    + rewrite capture_frame_emits by (repeat split; auto).
      destruct (IH (set_audio_queue (audio_queue self ++ [frames r ++ [d]]) self)
                   recorder_init w) as (chunks & r' & Hfeed & Hr' & Hall & Hcat);
        [exact Hrec | exact between_frames_init |].
      exists ((frames r ++ [d]) :: chunks), r'. split; [|split; [|split]].
      * rewrite Hfeed. cbn [audio_queue set_audio_queue].
        rewrite <- app_assoc. reflexivity.
      * exact Hr'.
      * constructor; [rewrite length_app; simpl; lia | exact Hall].
      * cbn [concat]. rewrite <- !app_assoc. f_equal. rewrite Hcat. reflexivity.
    + rewrite capture_frame_keeps by (repeat split; auto; lia).
      destruct (IH self {| pc := AtWhile; frames := frames r ++ [d];
                           chunk_count := chunk_count r + 1 |} w)
        as (chunks & r' & Hfeed & Hr' & Hall & Hcat).
      * exact Hrec.
      * repeat split; cbn [pc frames chunk_count]; rewrite ?length_app; simpl; lia.
      * exists chunks, r'. split; [exact Hfeed|]. split; [exact Hr'|].
        split; [exact Hall|].
        cbn [frames] in Hcat. rewrite Hcat, <- app_assoc. reflexivity.
Qed.

Lemma length_concat_uniform {A} (n : nat) (l : list (list A)) :
  Forall (fun c => length c = n) l -> length (concat l) = (n * length l)%nat.
Proof.
  induction 1 as [|c l Hc _ IH]; simpl; [lia|].
  rewrite length_app, IH, Hc. lia.
Qed.


(** C1 (as the code has it).  While capture runs, the frames read from the
    device are cut into chunks of [frames_per_chunk] frames, which is the
    integer part [floor(16000 / 1024 * 3) = 46] and not the ceiling: after
    any number [n] of frames, [n / 46] chunks have been queued, each of
    exactly 46 frames and in reading order, and [n mod 46] frames wait in the
    accumulator.  So a multiple [n] of 46 gives exactly [n / 46] chunks and
    an empty accumulator. *)
Theorem C1_chunks_of_floor_size
        (self : RealTimeTranscriber) (w : World) (data : list frame) :
  is_recording self = true ->
  exists chunks r',
    feed data (self, recorder_init, w)
    = (set_audio_queue (audio_queue self ++ chunks) self, r', w)
    /\ frames_per_chunk
       = Qfloor (inject_Z RATE / inject_Z CHUNK * inject_Z RECORD_SECONDS)
    /\ Z.of_nat (length chunks) = Z.of_nat (length data) / frames_per_chunk
    /\ Z.of_nat (length (frames r')) = Z.of_nat (length data) mod frames_per_chunk
    /\ Forall (fun c => Z.of_nat (length c) = frames_per_chunk) chunks
    /\ concat chunks ++ frames r' = data.
Proof.
  intros Hrec.
  destruct (feed_invariant data self recorder_init w Hrec between_frames_init)
    as (chunks & r' & Hfeed & (_ & _ & Hlt) & Hall & Hcat).
  exists chunks, r'. split; [exact Hfeed|]. split; [reflexivity|].
  change (frames recorder_init ++ data) with data in Hcat.
  assert (Hlen : (length data = 46 * length chunks + length (frames r'))%nat).
  { rewrite <- Hcat, length_app, (length_concat_uniform 46) by exact Hall. lia. }
  rewrite frames_per_chunk_value.
  split; [|split; [|split]].
  - apply (Z.div_unique _ 46 _ (Z.of_nat (length (frames r')))); lia.
  - apply (Z.mod_unique _ 46 (Z.of_nat (length chunks))); lia.
  - eapply Forall_impl; [|exact Hall]. cbv beta. intros c Hc. rewrite Hc. reflexivity.
  - exact Hcat.
Qed.

Lemma C1_chunks_of_floor_size_witness :
  is_recording Scenario.recording = true
  /\ exists chunks r',
      feed (repeat Scenario.silence 92) (Scenario.recording, recorder_init, Scenario.w0)
      = (set_audio_queue (audio_queue Scenario.recording ++ chunks) Scenario.recording,
         r', Scenario.w0)
      /\ frames_per_chunk
         = Qfloor (inject_Z RATE / inject_Z CHUNK * inject_Z RECORD_SECONDS)
      /\ Z.of_nat (length chunks)
         = Z.of_nat (length (repeat Scenario.silence 92)) / frames_per_chunk
      /\ Z.of_nat (length (frames r'))
         = Z.of_nat (length (repeat Scenario.silence 92)) mod frames_per_chunk
      /\ Forall (fun c => Z.of_nat (length c) = frames_per_chunk) chunks
      /\ concat chunks ++ frames r' = repeat Scenario.silence 92.
Proof.
  split; [reflexivity|].
  apply (C1_chunks_of_floor_size Scenario.recording Scenario.w0
                                 (repeat Scenario.silence 92)).
  reflexivity.
Defined.

(** C1 as stated fails: with the ceiling, 47, as chunk size, 2162 frames (46
    times 47) would give 46 chunks of 47 frames; the capture loop queues 47
    chunks, none of which has 47 frames. *)
Lemma C1_counterexample :
  let n := Qceiling (inject_Z RATE / inject_Z CHUNK * inject_Z RECORD_SECONDS) in
  let data := repeat Scenario.silence 2162 in
  let queue :=
    audio_queue (fst (fst (feed data (Scenario.recording, recorder_init, Scenario.w0)))) in
  n = 47
  /\ Z.of_nat (length data) mod n = 0
  /\ Z.of_nat (length data) / n = 46
  /\ length queue = 47%nat
  /\ forallb (fun c => Nat.eqb (length c) 46) queue = true.
Proof. vm_compute. repeat split. Qed.

(** ** Upload validation *)

Lemma contains_In l x : Py.contains l x = true <-> In x l.
Proof.
  unfold Py.contains. rewrite existsb_exists. split.
  - intros (y & Hy & Heq). apply String.eqb_eq in Heq. subst. exact Hy.
  - intros H. exists x. split; [exact H | apply String.eqb_refl].
Qed.

Lemma contains_not_In l x : Py.contains l x = false <-> ~ In x l.
Proof.
  rewrite <- contains_In. destruct (Py.contains l x); split; congruence.
Qed.

Lemma rfind_from_absent c s : forall i acc,
  occurs c s = false -> Py.rfind_from c s i acc = acc.
Proof.
  induction s as [|a s IH]; intros i acc H; simpl in *; [reflexivity|].
  apply orb_false_iff in H. destruct H as [Ha Hs].
  rewrite Ha. apply IH. exact Hs.
Qed.

Lemma rfind_from_range c s : forall i acc,
  Py.rfind_from c s i acc = acc \/ i <= Py.rfind_from c s i acc.
Proof.
  induction s as [|a s IH]; intros i acc; simpl; [left; reflexivity|].
  destruct (Ascii.eqb a c).
  - destruct (IH (i + 1) i) as [H|H]; rewrite ?H; right; lia.
  - destruct (IH (i + 1) acc) as [H|H]; [left; exact H | right; lia].
Qed.

Lemma slice_empty p : Py.slice p 0 0 = EmptyString.
Proof. unfold Py.slice. simpl. destruct p; reflexivity. Qed.

(** No dot at all: no extension. *)
Lemma splitext_no_dot name :
  occurs "." name = false -> snd (Py.splitext name) = EmptyString.
Proof.
  intros H. unfold Py.splitext, Py.rfind.
  rewrite (rfind_from_absent "." name 0 (-1) H).
  destruct (rfind_from_range "/" name 0 (-1)) as [Hs|Hs].
  - rewrite Hs. simpl. apply slice_empty.
  - destruct (Py.rfind_from "/" name 0 (-1) <? -1) eqn:E;
      [apply Z.ltb_lt in E; lia | simpl; apply slice_empty].
Qed.

(** A single dot, in first position: no extension either. *)
Lemma splitext_leading_dot rest :
  occurs "." rest = false -> snd (Py.splitext (String "." rest)) = EmptyString.
Proof.
  intros H. unfold Py.splitext, Py.rfind. cbn [Py.rfind_from Ascii.eqb Bool.eqb].
  change (0 + 1) with 1.
  rewrite (rfind_from_absent "." rest 1 0 H).
  destruct (rfind_from_range "/" rest 1 (-1)) as [Hs|Hs].
  - rewrite Hs. cbn [Z.ltb Z.compare Z.add Z.sub Z.opp Z.to_nat Pos.compare
                     Z.pos_sub Py.has_non_dot andb snd].
    apply slice_empty.
  - destruct (Py.rfind_from "/" rest 1 (-1) <? 0) eqn:E;
      [apply Z.ltb_lt in E; lia | simpl; apply slice_empty].
Qed.

(** Everything the code does before the [try]. *)
Lemma transcribe_audio_rejects env file o w name :
  filename file = Some name -> name <> EmptyString ->
  Py.contains allowed_extensions (file_extension name) = false ->
  transcribe_audio env file o w = (Raise unsupported_format_error, w).
Proof.
  intros Hf Hne Hext. unfold transcribe_audio. rewrite Hf.
  destruct (String.eqb name "") eqn:E; [apply String.eqb_eq in E; contradiction|].
  rewrite Hext. reflexivity.
Qed.

(** C6.  A missing or empty filename is answered with status 400 and
    "Nenhum arquivo enviado"; any other filename whose extension, lowered,
    is not one of the six allowed ones is answered with status 400 and the
    message that lists them.  In both cases the world is returned as it was
    received: no temporary file has been created and the engine has not been
    called. *)
Theorem C6_validation_order (env : Env) (file : UploadFile)
        (o : TranscriptionOptions) (w : World) :
  (filename file = None \/ filename file = Some EmptyString ->
   transcribe_audio env file o w
   = (Raise (HTTPException 400 "Nenhum arquivo enviado"), w))
  /\ (forall name,
        filename file = Some name -> name <> EmptyString ->
        ~ In (Py.lower (snd (Py.splitext name)))
             [".mp3"; ".wav"; ".m4a"; ".ogg"; ".flac"; ".aac"]%string ->
        transcribe_audio env file o w
        = (Raise (HTTPException 400
                    "Formato de arquivo não suportado. Formatos aceitos: .mp3, .wav, .m4a, .ogg, .flac, .aac"),
           w)).
Proof.
  split.
  - intros [H|H]; unfold transcribe_audio; rewrite H; reflexivity.
  - intros name Hf Hne Hext.
    apply (transcribe_audio_rejects env file o w name Hf Hne).
    apply contains_not_In. exact Hext.
Qed.

Lemma C6_validation_order_witness :
  transcribe_audio Scenario.env_ok (Scenario.upload "" [Byte.x01]) default_options Scenario.w0
  = (Raise (HTTPException 400 "Nenhum arquivo enviado"), Scenario.w0)
  /\ transcribe_audio Scenario.env_ok (Scenario.upload "notes.TXT" [Byte.x01])
                      default_options Scenario.w0
     = (Raise (HTTPException 400
                 "Formato de arquivo não suportado. Formatos aceitos: .mp3, .wav, .m4a, .ogg, .flac, .aac"),
        Scenario.w0).
Proof.
  split.
  - apply (proj1 (C6_validation_order Scenario.env_ok (Scenario.upload "" [Byte.x01])
                                      default_options Scenario.w0)).
    right. reflexivity.
  - apply (proj2 (C6_validation_order Scenario.env_ok
                                      (Scenario.upload "notes.TXT" [Byte.x01])
                                      default_options Scenario.w0) "notes.TXT"%string).
    + reflexivity.
    + discriminate.
    + vm_compute. intuition discriminate.
Defined.

(** C10.  A non-empty filename without any dot, or whose only dot is its
    first character, has the empty extension; the upload is answered with
    the unsupported-format error (not the no-file one) and the world is
    untouched. *)
Theorem C10_no_extension_rejected (env : Env) (file : UploadFile)
        (o : TranscriptionOptions) (w : World) (name : string) :
  filename file = Some name -> name <> EmptyString ->
  (occurs "." name = false
   \/ exists rest, name = String "." rest /\ occurs "." rest = false) ->
  snd (Py.splitext name) = EmptyString
  /\ transcribe_audio env file o w
     = (Raise (HTTPException 400
                 "Formato de arquivo não suportado. Formatos aceitos: .mp3, .wav, .m4a, .ogg, .flac, .aac"),
        w)
  /\ unsupported_format_error <> no_file_error.
Proof.
  intros Hf Hne Hshape.
  assert (Hext : snd (Py.splitext name) = EmptyString).
  { destruct Hshape as [H|(rest & -> & H)];
      [apply splitext_no_dot | apply splitext_leading_dot]; exact H. }
  split; [exact Hext|]. split; [|discriminate].
  apply (transcribe_audio_rejects env file o w name Hf Hne).
  unfold file_extension. rewrite Hext. reflexivity.
Qed.

Lemma C10_no_extension_rejected_witness :
  (snd (Py.splitext "audio") = EmptyString
   /\ transcribe_audio Scenario.env_ok (Scenario.upload "audio" [Byte.x01])
                       default_options Scenario.w0
      = (Raise (HTTPException 400
                  "Formato de arquivo não suportado. Formatos aceitos: .mp3, .wav, .m4a, .ogg, .flac, .aac"),
         Scenario.w0)
   /\ unsupported_format_error <> no_file_error)
  /\ (snd (Py.splitext ".mp3") = EmptyString
      /\ transcribe_audio Scenario.env_ok (Scenario.upload ".mp3" [Byte.x01])
                          default_options Scenario.w0
         = (Raise (HTTPException 400
                     "Formato de arquivo não suportado. Formatos aceitos: .mp3, .wav, .m4a, .ogg, .flac, .aac"),
            Scenario.w0)
      /\ unsupported_format_error <> no_file_error).
Proof.
  split.
  - apply (C10_no_extension_rejected Scenario.env_ok (Scenario.upload "audio" [Byte.x01])
                                     default_options Scenario.w0 "audio"%string).
    + reflexivity.
    + discriminate.
    + left. reflexivity.
  - apply (C10_no_extension_rejected Scenario.env_ok (Scenario.upload ".mp3" [Byte.x01])
                                     default_options Scenario.w0 ".mp3"%string).
    + reflexivity.
    + discriminate.
    + right. exists "mp3"%string. split; reflexivity.
Defined.

(** ** Effects of one upload and of a batch *)

Section UploadEffects.

Variable env : Env.

Lemma os_unlink_trace p w :
  exists evs,
    trace (snd (os_unlink env p w)) = trace w ++ evs
    /\ (evs = [] \/ evs = [EvUnlink p] \/ evs = [EvUnlinkFailed p]).
Proof.
  unfold os_unlink. destruct (exists_file p w).
  - destruct (unlink_error env w p).
    + exists [EvUnlinkFailed p]. split; [reflexivity | auto].
    + exists [EvUnlink p]. split; [reflexivity | auto].
  - exists []. split; [simpl; rewrite app_nil_r; reflexivity | auto].
Qed.

Lemma os_unlink_events p w o :
  exists evs,
    trace (snd (os_unlink env p w)) = trace w ++ evs
    /\ Forall (upload_event o (Some p)) evs.
Proof.
  destruct (os_unlink_trace p w) as (evs & Ht & [->|[->| ->]]);
    eexists; (split; [exact Ht|]); repeat constructor.
Qed.

(** What the [try] block leaves in the trace: file operations on the name
    [NamedTemporaryFile] gave and engine calls with the handler's options;
    [temp_file_path], when bound, is that name. *)
Lemma try_block_trace file name o ext w :
  exists evs,
    trace (snd (try_block env file name o ext w)) = trace w ++ evs
    /\ Forall (upload_event o (named env w ext)) evs
    /\ (fst (fst (try_block env file name o ext w)) = None
        \/ fst (fst (try_block env file name o ext w)) = named env w ext).
Proof.
  unfold try_block, named.
  destruct (NamedTemporaryFile env w ext) as [temp|e].
  2:{ exists []. split; [simpl; rewrite app_nil_r; reflexivity|].
      split; [constructor | left; reflexivity]. }
  destruct (read file) as [content|e].
  2:{ exists [EvCreate temp]. split; [reflexivity|].
      split; [repeat constructor | left; reflexivity]. }
  destruct (write_error env (create_file temp w) temp content) as [e|].
  1:{ exists [EvCreate temp]. split; [reflexivity|].
      split; [repeat constructor | left; reflexivity]. }
  cbv zeta.
  set (w3 := emit (EvTranscribe temp o) _).
  assert (H3 : trace w3 = trace w ++ [EvCreate temp; EvWrite temp content;
                                       EvLog INFO ("Transcrevendo arquivo: " ++ name)%string;
                                       EvTranscribe temp o]).
  { subst w3. simpl. rewrite <- !app_assoc. reflexivity. }
  assert (F3 : Forall (upload_event o (Some temp))
                      [EvCreate temp; EvWrite temp content;
                       EvLog INFO ("Transcrevendo arquivo: " ++ name)%string;
                       EvTranscribe temp o]).
  { repeat constructor. }
  destruct (model_transcribe env w3 temp o) as [[segs info]|e].
  2:{ eexists. split; [exact H3|]. split; [exact F3 | right; reflexivity]. }
  destruct (convert_segments (word_timestamps o) segs [] "") as [[sl ft]|e].
  2:{ eexists. split; [exact H3|]. split; [exact F3 | right; reflexivity]. }
  destruct (os_unlink_events temp w3 o) as (evs & Hu & Fu).
  destruct (os_unlink env temp w3) as [[u|e] w4]; cbn [snd fst] in *.
  - eexists. split; [|split; [|right; reflexivity]].
    + simpl. rewrite Hu, H3, <- !app_assoc. reflexivity.
    + apply Forall_app. split; [exact F3|]. apply Forall_app. split; [exact Fu|].
      repeat constructor.
  - eexists. split; [|split; [|right; reflexivity]].
    + rewrite Hu, H3, <- !app_assoc. reflexivity.
    + apply Forall_app. split; [exact F3 | exact Fu].
Qed.

(** Every engine call made for an upload carries the options the handler
    was called with, and every file operation is on the upload's own
    temporary path. *)
Lemma transcribe_audio_events file o w :
  exists evs,
    trace (snd (transcribe_audio env file o w)) = trace w ++ evs
    /\ Forall (upload_event o (upload_path env file w)) evs.
Proof.
  assert (Hnil : exists evs, trace w = trace w ++ evs
                             /\ Forall (upload_event o (upload_path env file w)) evs).
  { exists []. split; [rewrite app_nil_r; reflexivity | constructor]. }
  unfold transcribe_audio, upload_path in *.
  destruct (filename file) as [name|]; [|exact Hnil].
  destruct (String.eqb name ""); [exact Hnil|].
  destruct (negb _); [exact Hnil|].
  destruct (try_block_trace file name o (file_extension name) w)
    as (evs & Ht & Ft & Hp).
  destruct (try_block env file name o (file_extension name) w) as [[tfp [r|e]] w1];
    cbn [snd fst] in *.
  - exists evs. split; assumption.
  - destruct tfp as [p|].
    + destruct Hp as [Hp|Hp]; [discriminate|]. rewrite <- Hp in *.
      destruct (os_unlink_events p w1 o) as (evs' & Hu & Fu).
      eexists. split.
      * simpl. rewrite Hu, Ht, <- !app_assoc. reflexivity.
      * apply Forall_app. split; [exact Ft|]. apply Forall_app. split; [exact Fu|].
        repeat constructor.
    + eexists. split.
      * simpl. rewrite Ht, <- !app_assoc. reflexivity.
      * apply Forall_app. split; [exact Ft|]. repeat constructor.
Qed.

Lemma transcribe_audio_trace file o w :
  exists evs,
    trace (snd (transcribe_audio env file o w)) = trace w ++ evs
    /\ Forall (calls_with o) evs.
Proof.
  destruct (transcribe_audio_events file o w) as (evs & Ht & Fe).
  exists evs. split; [exact Ht|].
  eapply Forall_impl; [|exact Fe]. intros ev [H _]. exact H.
Qed.

Lemma batch_loop_acc files : forall acc w,
  batch_loop env files acc w
  = (acc ++ fst (batch_loop env files [] w), snd (batch_loop env files [] w)).
Proof.
  induction files as [|file files IH]; intros acc w; simpl.
  - rewrite app_nil_r. reflexivity.
  - destruct (transcribe_audio env file default_options w) as [r w1].
    rewrite (IH (acc ++ [batch_item file r])), (IH [batch_item file r]).
    simpl. rewrite <- app_assoc. reflexivity.
Qed.

Lemma transcribe_batch_cons file files w :
  transcribe_batch env (file :: files) w
  = (batch_item file (fst (transcribe_audio env file default_options w))
       :: fst (transcribe_batch env files
                 (snd (transcribe_audio env file default_options w))),
     snd (transcribe_batch env files
            (snd (transcribe_audio env file default_options w)))).
Proof.
  unfold transcribe_batch. simpl.
  destruct (transcribe_audio env file default_options w) as [r w1].
  rewrite batch_loop_acc. reflexivity.
Qed.

Lemma transcribe_batch_length files : forall w,
  length (fst (transcribe_batch env files w)) = length files.
Proof.
  induction files as [|file files IH]; intros w; [reflexivity|].
  rewrite transcribe_batch_cons. simpl. rewrite IH. reflexivity.
Qed.

Lemma transcribe_batch_nth files : forall w i,
  nth_error (fst (transcribe_batch env files w)) i
  = option_map
      (fun file =>
         batch_item file
           (fst (transcribe_audio env file default_options
                   (snd (transcribe_batch env (firstn i files) w)))))
      (nth_error files i).
Proof.
  induction files as [|file files IH]; intros w i.
  - destruct i; reflexivity.
  - rewrite transcribe_batch_cons. destruct i as [|i]; [reflexivity|].
    cbn [nth_error fst firstn]. rewrite IH, transcribe_batch_cons. reflexivity.
Qed.

Lemma batch_loop_trace o files :
  o = default_options ->
  forall acc w,
  exists evs,
    trace (snd (batch_loop env files acc w)) = trace w ++ evs
    /\ Forall (calls_with o) evs.
Proof.
  intros ->.
  induction files as [|file files IH]; intros acc w; simpl.
  - exists []. split; [rewrite app_nil_r; reflexivity | constructor].
  - destruct (transcribe_audio_trace file default_options w) as (evs1 & H1 & F1).
    destruct (transcribe_audio env file default_options w) as [r w1]; cbn [snd] in *.
    destruct (IH (acc ++ [batch_item file r]) w1) as (evs2 & H2 & F2).
    exists (evs1 ++ evs2). split.
    + rewrite H2, H1, app_assoc. reflexivity.
    + apply Forall_app. split; assumption.
Qed.

End UploadEffects.

(** ** Batch upload *)

(** C8.  The batch result has one element per file, in input order.  The
    element at position [i] is built from the outcome of [transcribe_audio]
    on file [i], run in the world that files [0..i-1] left behind whatever
    their outcomes were: it carries the file's name, and either
    [success = true] with the transcription, or [success = false] with the
    text of the exception. *)
Theorem C8_batch_partial_failure (env : Env) (files : list UploadFile) (w : World) :
  length (fst (transcribe_batch env files w)) = length files
  /\ (forall i,
        nth_error (fst (transcribe_batch env files w)) i
        = option_map
            (fun file =>
               batch_item file
                 (fst (transcribe_audio env file default_options
                         (snd (transcribe_batch env (firstn i files) w)))))
            (nth_error files i))
  /\ (forall file result,
        batch_item file (Ok result)
        = {| item_filename := filename file; success := true;
             transcription := Some result; error := None |})
  /\ (forall file e,
        batch_item file (Raise e)
        = {| item_filename := filename file; success := false;
             transcription := None; error := Some (str_exn e) |}).
Proof.
  split; [apply transcribe_batch_length|].
  split; [apply transcribe_batch_nth|].
  split; reflexivity.
Qed.

(** C9.  Whatever the files and whatever the collaborators do, every engine
    call made while a batch is served carries beam size 5, no forced
    language, word timestamps off and the VAD filter on.  ([transcribe_batch]
    has no parameter from which other values could come.) *)
Theorem C9_batch_default_options (env : Env) (files : list UploadFile) (w : World) :
  exists evs,
    trace (snd (transcribe_batch env files w)) = trace w ++ evs
    /\ Forall (fun ev =>
                 match ev with
                 | EvTranscribe _ o =>
                     o = {| beam_size := 5; language := None;
                            word_timestamps := false; vad_filter := true |}
                 | _ => True
                 end) evs.
Proof.
  exact (batch_loop_trace env _ files eq_refl [] w).
Qed.

(** ** Payload size *)

Lemma big_payload_length : Z.of_nat (length Scenario.big_payload) = 104857601.
Proof. unfold Scenario.big_payload. rewrite repeat_length. apply N_nat_Z. Qed.

(** C2 (as the code has it).  [transcribe_audio] never looks at the size of
    the payload.  An upload larger than the configured maximum, with a
    non-empty filename and an allowed extension, is staged like any other:
    once the temporary file is obtained and written, it holds the whole
    payload and the engine is called on it; the answer is a transcription
    or a status-500 error, never a validation error. *)
Theorem C2_oversize_upload_is_processed
        (cfg : Config.t) (env : Env) (file : UploadFile) (o : TranscriptionOptions)
        (w : World) (name : string) (content : bytes) (temp : string) :
  filename file = Some name -> name <> EmptyString ->
  In (file_extension name) allowed_extensions ->
  read file = Ok content ->
  Config.MAX_FILE_SIZE cfg < Z.of_nat (length content) ->
  NamedTemporaryFile env w (file_extension name) = Ok temp ->
  write_error env (create_file temp w) temp content = None ->
  (exists later,
      trace (snd (transcribe_audio env file o w))
      = trace w
          ++ [EvCreate temp; EvWrite temp content;
              EvLog INFO ("Transcrevendo arquivo: " ++ name)%string;
              EvTranscribe temp o]
          ++ later)
  /\ ((exists r, fst (transcribe_audio env file o w) = Ok r)
      \/ (exists d, fst (transcribe_audio env file o w) = Raise (HTTPException 500 d))).
Proof.
  intros Hf Hne Hext Hread _ Htemp Hwrite.
  apply contains_In in Hext.
  unfold transcribe_audio. rewrite Hf.
  destruct (String.eqb name "") eqn:E; [apply String.eqb_eq in E; contradiction|].
  rewrite Hext. cbn [negb].
  unfold try_block. rewrite Htemp, Hread, Hwrite. cbv zeta.
  set (w3 := emit (EvTranscribe temp o) _).
  assert (H3 : trace w3 = trace w ++ [EvCreate temp; EvWrite temp content;
                                       EvLog INFO ("Transcrevendo arquivo: " ++ name)%string;
                                       EvTranscribe temp o]).
  { subst w3. simpl. rewrite <- !app_assoc. reflexivity. }
  destruct (model_transcribe env w3 temp o) as [[segs info]|e].
  2:{ destruct (os_unlink_trace env temp w3) as (evs & Hu & _).
      split; [|right; eexists; reflexivity].
      eexists. cbn [snd trace emit]. rewrite Hu, H3, <- !app_assoc. reflexivity. }
  destruct (convert_segments (word_timestamps o) segs [] "") as [[sl ft]|e].
  2:{ destruct (os_unlink_trace env temp w3) as (evs & Hu & _).
      split; [|right; eexists; reflexivity].
      eexists. cbn [snd trace emit]. rewrite Hu, H3, <- !app_assoc. reflexivity. }
  destruct (os_unlink_trace env temp w3) as (evs & Hu & _).
  destruct (os_unlink env temp w3) as [[u|e] w4]; cbn [snd] in Hu.
  - split; [|left; eexists; reflexivity].
    eexists. cbn [snd trace emit]. rewrite Hu, H3, <- !app_assoc. reflexivity.
  - destruct (os_unlink_trace env temp w4) as (evs' & Hu' & _).
    split; [|right; eexists; reflexivity].
    eexists. cbn [snd trace emit]. rewrite Hu', Hu, H3, <- !app_assoc. reflexivity.
Qed.

Lemma upload_run_ok (payload : bytes) :
  transcribe_audio Scenario.env_ok (Scenario.upload "big.wav" payload)
                   default_options Scenario.w0
  = (Ok {| text := "ola"; resp_language := "pt"; language_probability := 9 # 10;
           segments := [{| sd_start := 0; sd_end := 1 # 2; sd_text := " ola";
                           sd_words := None |}] |},
     {| fs := [];
        trace := [EvCreate "/tmp/tmp0.wav"; EvWrite "/tmp/tmp0.wav" payload;
                  EvLog INFO "Transcrevendo arquivo: big.wav";
                  EvTranscribe "/tmp/tmp0.wav" default_options;
                  EvUnlink "/tmp/tmp0.wav";
                  EvLog INFO "Transcrição concluída. Idioma detectado: pt"] |}).
Proof. vm_compute. reflexivity. Qed.

Lemma C2_oversize_upload_is_processed_witness :
  (exists later,
      trace (snd (transcribe_audio Scenario.env_ok
                    (Scenario.upload "big.wav" Scenario.big_payload)
                    default_options Scenario.w0))
      = trace Scenario.w0
          ++ [EvCreate "/tmp/tmp0.wav"; EvWrite "/tmp/tmp0.wav" Scenario.big_payload;
              EvLog INFO ("Transcrevendo arquivo: " ++ "big.wav")%string;
              EvTranscribe "/tmp/tmp0.wav" default_options]
          ++ later)
  /\ ((exists r, fst (transcribe_audio Scenario.env_ok
                        (Scenario.upload "big.wav" Scenario.big_payload)
                        default_options Scenario.w0) = Ok r)
      \/ (exists d, fst (transcribe_audio Scenario.env_ok
                           (Scenario.upload "big.wav" Scenario.big_payload)
                           default_options Scenario.w0)
                    = Raise (HTTPException 500 d))).
Proof.
  apply (C2_oversize_upload_is_processed
           Config.config Scenario.env_ok
           (Scenario.upload "big.wav" Scenario.big_payload) default_options
           Scenario.w0 "big.wav"%string Scenario.big_payload "/tmp/tmp0.wav"%string).
  - reflexivity.
  - discriminate.
  - vm_compute. tauto.
  - reflexivity.
  - rewrite big_payload_length. reflexivity.
  - reflexivity.
  - reflexivity.
Defined.

(** C2 as stated fails: under the default configuration (maximum 100 MiB) a
    payload of 100 MiB and one byte named ["big.wav"] is written whole to a
    temporary file, handed to the engine, and answered with the
    transcription. *)
Lemma C2_counterexample :
  Config.MAX_FILE_SIZE Config.config = 104857600
  /\ Config.MAX_FILE_SIZE Config.config < Z.of_nat (length Scenario.big_payload)
  /\ transcribe_audio Scenario.env_ok (Scenario.upload "big.wav" Scenario.big_payload)
                      default_options Scenario.w0
     = (Ok {| text := "ola"; resp_language := "pt"; language_probability := 9 # 10;
              segments := [{| sd_start := 0; sd_end := 1 # 2; sd_text := " ola";
                              sd_words := None |}] |},
        {| fs := [];
           trace := [EvCreate "/tmp/tmp0.wav";
                     EvWrite "/tmp/tmp0.wav" Scenario.big_payload;
                     EvLog INFO "Transcrevendo arquivo: big.wav";
                     EvTranscribe "/tmp/tmp0.wav" default_options;
                     EvUnlink "/tmp/tmp0.wav";
                     EvLog INFO "Transcrição concluída. Idioma detectado: pt"] |}).
Proof.
  split; [reflexivity|]. split.
  - rewrite big_payload_length. reflexivity.
  - apply upload_run_ok.
Qed.

(** ** Temporary-file cleanup *)

(** When the engine raises, the upload handler's own deletion is attempted
    and its failure is dropped: the caller gets the engine's error. *)
Lemma upload_inference_error_reported env file o w name content temp e :
  filename file = Some name -> name <> EmptyString ->
  In (file_extension name) allowed_extensions ->
  read file = Ok content ->
  NamedTemporaryFile env w (file_extension name) = Ok temp ->
  write_error env (create_file temp w) temp content = None ->
  model_transcribe env
    (emit (EvTranscribe temp o)
       (emit (EvLog INFO ("Transcrevendo arquivo: " ++ name)%string)
          (write_file temp content (create_file temp w)))) temp o = Raise e ->
  fst (transcribe_audio env file o w)
  = Raise (HTTPException 500 ("Erro na transcrição: " ++ str_exn e)%string).
Proof.
  intros Hf Hne Hext Hread Htemp Hwrite Hengine.
  apply contains_In in Hext.
  unfold transcribe_audio. rewrite Hf.
  destruct (String.eqb name "") eqn:E; [apply String.eqb_eq in E; contradiction|].
  rewrite Hext. cbn [negb].
  unfold try_block. rewrite Htemp, Hread, Hwrite. cbv zeta.
  rewrite Hengine. reflexivity.
Qed.

(** C5, at the failing input.  Same upload, same engine (it succeeds with
    the text " ola"); the only difference is that [os.unlink] raises.  The
    caller of [transcribe_audio] then receives a status-500 error that
    carries the deletion failure instead of the transcription.  In the
    worker, with a failing engine and a failing deletion, the exception
    raised by [os.remove] inside the handler is not caught by anything. *)
Theorem C5_cleanup_failure_replaces_result :
  let file := Scenario.upload "a.wav" [Byte.x01] in
  model_transcribe Scenario.env_unlink_fails = model_transcribe Scenario.env_ok
  /\ fst (transcribe_audio Scenario.env_ok file default_options Scenario.w0)
     = Ok {| text := "ola"; resp_language := "pt"; language_probability := 9 # 10;
             segments := [{| sd_start := 0; sd_end := 1 # 2; sd_text := " ola";
                             sd_words := None |}] |}
  /\ fst (transcribe_audio Scenario.env_unlink_fails file default_options Scenario.w0)
     = Raise (HTTPException 500
                "Erro na transcrição: [Errno 13] Permission denied: '/tmp/tmp0.wav'")
  /\ fst (process_chunk Scenario.env_engine_and_unlink_fail Config.config
                        [Scenario.silence] Scenario.w0)
     = Raise (Exception "[Errno 13] Permission denied: 'temp_chunk_1730000000.wav'").
Proof. vm_compute. repeat split. Qed.

(** ** Temporary-file names *)

Lemma string_length_append (s t : string) :
  String.length (s ++ t) = (String.length s + String.length t)%nat.
Proof. induction s as [|c s IH]; simpl; [reflexivity | rewrite IH; reflexivity]. Qed.

Lemma string_append_cancel_r (t : string) : forall s1 s2 : string,
  (s1 ++ t)%string = (s2 ++ t)%string -> s1 = s2.
Proof.
  intros s1 s2 H.
  assert (Hlen : String.length s1 = String.length s2).
  { apply (f_equal String.length) in H. rewrite !string_length_append in H. lia. }
  revert s2 H Hlen.
  induction s1 as [|c s1 IH]; intros [|c2 s2] H Hlen; simpl in *;
    try discriminate; [reflexivity|].
  inversion H; subst. f_equal. apply IH; [assumption | lia].
Qed.

Lemma string_append_cancel_l (p : string) : forall s1 s2 : string,
  (p ++ s1)%string = (p ++ s2)%string -> s1 = s2.
Proof.
  induction p as [|c p IH]; intros s1 s2 H; simpl in H; [exact H|].
  inversion H. apply IH. assumption.
Qed.

Lemma str_int_inj (a b : Z) : Py.str_int a = Py.str_int b -> a = b.
Proof.
  unfold Py.str_int. intros H.
  apply DecimalZ.to_int_inj.
  assert (Hs : Some (Z.to_int a) = Some (Z.to_int b)).
  { rewrite <- !NilEmpty.isi. rewrite H. reflexivity. }
  inversion Hs. reflexivity.
Qed.

Section ChunkFiles.

Variable env : Env.
Variable cfg : Config.t.

Lemma os_unlink_paths p w :
  exists evs,
    trace (snd (os_unlink env p w)) = trace w ++ evs
    /\ Forall (on_path (Some p)) evs.
Proof.
  destruct (os_unlink_trace env p w) as (evs & Ht & [->|[->| ->]]);
    eexists; (split; [exact Ht|]); repeat constructor.
Qed.

Lemma worker_try_events temp c w :
  exists evs,
    trace (snd (worker_try env cfg temp c w)) = trace w ++ evs
    /\ Forall (on_path (Some temp)) evs.
Proof.
  unfold worker_try.
  destruct (wave_open_error env w temp) as [e|].
  1:{ exists []. split; [simpl; rewrite app_nil_r; reflexivity | constructor]. }
  cbv zeta.
  destruct (writeframes_error env (create_file temp w) temp (concat c)) as [e|].
  1:{ exists [EvCreate temp]. split; [reflexivity | repeat constructor]. }
  set (w3 := emit (EvTranscribe temp (worker_options cfg)) _).
  assert (H3 : trace w3 = trace w ++ [EvCreate temp; EvWrite temp (concat c);
                                       EvTranscribe temp (worker_options cfg)]).
  { subst w3. simpl. rewrite <- !app_assoc. reflexivity. }
  clearbody w3.
  assert (F3 : Forall (on_path (Some temp))
                      [EvCreate temp; EvWrite temp (concat c);
                       EvTranscribe temp (worker_options cfg)]).
  { repeat constructor. }
  destruct (model_transcribe env w3 temp (worker_options cfg)) as [[segs info]|e].
  2:{ eexists. split; [exact H3 | exact F3]. }
  destruct (String.eqb (Py.strip (String.concat "" (map seg_text segs))) ""); cbv iota.
  - destruct (os_unlink_paths temp w3) as (evs & Hu & Fu).
    eexists. split; [rewrite Hu, H3, <- app_assoc; reflexivity|].
    apply Forall_app. split; assumption.
  - destruct (os_unlink_paths temp (emit (EvPrint
               ("[" ++ time_strftime env w3 ++ "] "
                    ++ Py.strip (String.concat "" (map seg_text segs)))%string) w3))
      as (evs & Hu & Fu).
    eexists. split; [rewrite Hu; simpl; rewrite H3, <- !app_assoc; reflexivity|].
    apply Forall_app. split; [exact F3|]. constructor; [exact I | exact Fu].
Qed.

(** Every file operation and engine call made for one chunk is on
    [temp_chunk_<seconds>.wav], the seconds being those of the clock when
    the chunk was dequeued. *)
Lemma process_chunk_events c w :
  exists evs,
    trace (snd (process_chunk env cfg c w)) = trace w ++ evs
    /\ Forall (on_path (Some (temp_filename (time_time env w)))) evs.
Proof.
  unfold process_chunk.
  set (temp := temp_filename (time_time env w)).
  destruct (worker_try_events temp c w) as (evs & Ht & Ft).
  destruct (worker_try env cfg temp c w) as [[u|e] w1]; cbn [snd] in *.
  - exists evs. split; assumption.
  - destruct (exists_file temp _).
    + destruct (os_unlink_paths temp
                  (emit (EvLog ERROR ("Erro na transcrição: " ++ str_exn e)%string) w1))
        as (evs' & Hu & Fu).
      eexists. split; [rewrite Hu; simpl; rewrite Ht, <- !app_assoc; reflexivity|].
      apply Forall_app. split; [exact Ft|]. constructor; [exact I | exact Fu].
    + eexists. split; [simpl; rewrite Ht, <- !app_assoc; reflexivity|].
      apply Forall_app. split; [exact Ft|]. repeat constructor.
Qed.

End ChunkFiles.

(** C7 (as the code has it).  Every file operation for a chunk is on
    [temp_chunk_<seconds>.wav], named after the whole seconds of the clock
    at the dequeue, so two chunks get the same path exactly when they are
    dequeued within the same second.  Every file operation for an upload is
    on the name [NamedTemporaryFile] returned for it; the code adds nothing
    to that name. *)
Theorem C7_chunk_path_per_second (env : Env) (cfg : Config.t) :
  (forall t1 t2 : Q, temp_filename t1 = temp_filename t2 <-> Py.int t1 = Py.int t2)
  /\ (forall c w,
        exists evs,
          trace (snd (process_chunk env cfg c w)) = trace w ++ evs
          /\ Forall (on_path (Some (temp_filename (time_time env w)))) evs)
  /\ (forall file o w,
        exists evs,
          trace (snd (transcribe_audio env file o w)) = trace w ++ evs
          /\ Forall (on_path (upload_path env file w)) evs).
Proof.
  split; [|split].
  - intros t1 t2. unfold temp_filename. split.
    + intros H. apply str_int_inj.
      apply (string_append_cancel_r ".wav").
      apply (string_append_cancel_l "temp_chunk_"). exact H.
    + intros ->. reflexivity.
  - apply process_chunk_events.
  - intros file o w.
    destruct (transcribe_audio_events env file o w) as (evs & Ht & Fe).
    exists evs. split; [exact Ht|].
    eapply Forall_impl; [|exact Fe]. intros ev [_ H]. exact H.
Qed.

(** C7 as stated fails: the worker drains a queue holding two different
    chunks; the clock reads 1730000000.00 at the first and 1730000000.05 at
    the second; both are written to ["temp_chunk_1730000000.wav"]. *)
Lemma C7_counterexample :
  let c1 := [Scenario.silence] in
  let c2 := [Scenario.click] in
  let self := Scenario.stopped_with [c1; c2] in
  c1 <> c2
  /\ trace (snd (snd (worker_loop Scenario.env_ok Config.config 3 (self, Scenario.w0))))
     = [EvCreate "temp_chunk_1730000000.wav";
        EvWrite "temp_chunk_1730000000.wav" (concat c1);
        EvTranscribe "temp_chunk_1730000000.wav" (worker_options Config.config);
        EvPrint "[12:00:00] ola";
        EvUnlink "temp_chunk_1730000000.wav";
        EvCreate "temp_chunk_1730000000.wav";
        EvWrite "temp_chunk_1730000000.wav" (concat c2);
        EvTranscribe "temp_chunk_1730000000.wav" (worker_options Config.config);
        EvPrint "[12:00:00] ola";
        EvUnlink "temp_chunk_1730000000.wav"].
Proof. split; [discriminate | vm_compute; reflexivity]. Qed.

(** ** Stopping the capture thread *)

Lemma record_audio_finished devs : forall self r w,
  pc r = Finished -> _record_audio devs (self, r, w) = (self, r, w).
Proof.
  induction devs as [|d devs IH]; intros self r w Hpc; [reflexivity|].
  unfold _record_audio in *. cbn [fold_left]. unfold capture_step at 2.
  rewrite Hpc. apply IH. exact Hpc.
Qed.

Lemma append_frame_spec d self r w :
  exists s' r',
    append_frame d (self, r, w) = (s', r', w)
    /\ pc r' = AtWhile
    /\ is_recording s' = is_recording self
    /\ produced s' r' = S (produced self r).
Proof.
  unfold append_frame. destruct (frames_per_chunk <=? chunk_count r + 1).
  - eexists _, _. split; [reflexivity|]. split; [reflexivity|]. split; [reflexivity|].
    unfold produced. cbn [audio_queue set_audio_queue frames].
    rewrite concat_app. cbn [concat]. rewrite !length_app. cbn [length]. lia.
  - eexists _, _. split; [reflexivity|]. split; [reflexivity|]. split; [reflexivity|].
    unfold produced. cbn [frames]. rewrite length_app. simpl. lia.
Qed.

Lemma settles_finished self r w : pc r = Finished -> settles 0 0 self r w.
Proof.
  intros Hpc devs. exists self, r, w.
  split; [apply record_audio_finished; exact Hpc|]. split; [lia | auto].
Qed.

Lemma settles_weaken k n k' n' self r w :
  (k <= k')%nat -> (n <= n')%nat -> settles k n self r w -> settles k' n' self r w.
Proof.
  intros Hk Hn H devs. destruct (H devs) as (s' & r' & w' & Hrun & Hp & Hf).
  exists s', r', w'. split; [exact Hrun|]. split; [lia | intros; apply Hf; lia].
Qed.

Lemma settles_while self r w :
  is_recording self = false -> pc r = AtWhile -> settles 0 1 self r w.
Proof.
  intros Hrec Hpc [|d devs].
  - exists self, r, w. split; [reflexivity|]. split; [lia | simpl; lia].
  - exists self, (at_pc Finished r), w. split; [|split; [unfold produced; simpl; lia | auto]].
    unfold _record_audio. cbn [fold_left]. unfold capture_step at 2.
    rewrite Hpc, Hrec. apply record_audio_finished. reflexivity.
Qed.

Lemma settles_append self r w data :
  is_recording self = false -> pc r = AtAppend data -> settles 1 2 self r w.
Proof.
  intros Hrec Hpc [|d devs].
  - exists self, r, w. split; [reflexivity|]. split; [lia | simpl; lia].
  - destruct (append_frame_spec data self r w) as (s1 & r1 & Happ & Hpc1 & Hrec1 & Hp1).
    rewrite Hrec in Hrec1.
    destruct (settles_while s1 r1 w Hrec1 Hpc1 devs) as (s' & r' & w' & Hrun & Hp & Hf).
    exists s', r', w'. split; [|split; [lia | simpl; intros; apply Hf; lia]].
    unfold _record_audio in *. cbn [fold_left]. unfold capture_step at 2.
    rewrite Hpc, Happ. exact Hrun.
Qed.

Lemma settles_read self r w :
  is_recording self = false -> pc r = AtRead -> settles 1 3 self r w.
Proof.
  intros Hrec Hpc [|d devs].
  - exists self, r, w. split; [reflexivity|]. split; [lia | simpl; lia].
  - destruct d as [data|e].
    + destruct (settles_append self (at_pc (AtAppend data) r) w data Hrec eq_refl devs)
        as (s' & r' & w' & Hrun & Hp & Hf).
      exists s', r', w'. split; [|split; [exact Hp | simpl; intros; apply Hf; lia]].
      unfold _record_audio in *. cbn [fold_left]. unfold capture_step at 2.
      rewrite Hpc. exact Hrun.
    + eexists self, (at_pc Finished r), _.
      split; [|split; [unfold produced; simpl; lia | auto]].
      unfold _record_audio. cbn [fold_left]. unfold capture_step at 2.
      rewrite Hpc. apply record_audio_finished. reflexivity.
Qed.

Lemma stopped_capture_settles self r w :
  is_recording self = false -> settles 1 3 self r w.
Proof.
  intros Hrec. destruct (pc r) eqn:Hpc.
  - apply (settles_weaken 0 1); [lia | lia | apply settles_while; assumption].
  - apply settles_read; assumption.
  - apply (settles_weaken 1 2); [lia | lia | eapply settles_append; eassumption].
  - apply (settles_weaken 0 0); [lia | lia | apply settles_finished; assumption].
Qed.

Lemma stop_recording_returns self w :
  stop_recording self w
  = (Ok {| is_recording := false; is_transcribing := false;
           stream := match stream self with
                     | Some _ => Some StreamClosed
                     | None => None
                     end;
           audio_queue := audio_queue self; audio_terminated := true |},
     emit (EvLog INFO "Gravação interrompida.") w).
Proof. unfold stop_recording. destruct self as [a b [s|] q t]; reflexivity. Qed.

(** C3 (as the code has it).  [stop_recording] returns normally from every
    state, in particular when [start_recording] was never called; it clears
    both flags and closes the stream if there is one.  It does not wait for
    the capture thread: what holds after it returns is that the thread hands
    on at most one more frame (the one whose read was under way) and has
    left its loop by the third time it is scheduled. *)
Theorem C3_stop_clears_flags_without_join
        (self : RealTimeTranscriber) (r : Recorder) (w : World) :
  exists self1 w1,
    stop_recording self w = (Ok self1, w1)
    /\ is_recording self1 = false
    /\ is_transcribing self1 = false
    /\ stream self1 = match stream self with
                      | Some _ => Some StreamClosed
                      | None => None
                      end
    /\ (forall devs,
          let st := _record_audio devs (self1, r, w1) in
          (produced (fst (fst st)) (snd (fst st)) <= produced self1 r + 1)%nat)
    /\ (forall d1 d2 d3 devs,
          pc (snd (fst (_record_audio (d1 :: d2 :: d3 :: devs) (self1, r, w1)))) = Finished)
    /\ stop_recording init w
       = (Ok {| is_recording := false; is_transcribing := false; stream := None;
                audio_queue := []; audio_terminated := true |},
          emit (EvLog INFO "Gravação interrompida.") w).
Proof.
  eexists _, _. split; [apply stop_recording_returns|].
  split; [reflexivity|]. split; [reflexivity|]. split; [reflexivity|].
  split; [|split; [|reflexivity]].
  - intros devs.
    destruct (stopped_capture_settles
                {| is_recording := false; is_transcribing := false;
                   stream := match stream self with
                             | Some _ => Some StreamClosed
                             | None => None
                             end;
                   audio_queue := audio_queue self; audio_terminated := true |}
                r (emit (EvLog INFO "Gravação interrompida.") w) eq_refl devs)
      as (s' & r' & w' & Hrun & Hp & _).
    cbv zeta. rewrite Hrun. exact Hp.
  - intros d1 d2 d3 devs.
    destruct (stopped_capture_settles
                {| is_recording := false; is_transcribing := false;
                   stream := match stream self with
                             | Some _ => Some StreamClosed
                             | None => None
                             end;
                   audio_queue := audio_queue self; audio_terminated := true |}
                r (emit (EvLog INFO "Gravação interrompida.") w) eq_refl
                (d1 :: d2 :: d3 :: devs))
      as (s' & r' & w' & Hrun & _ & Hf).
    rewrite Hrun. apply Hf. simpl. lia.
Qed.

(** C3 as stated fails.  The capture thread passes its loop test and its
    read returns; then [stop_recording] runs to its end; the thread, when
    scheduled again, appends the frame it had read.  With 45 frames already
    accumulated, that frame completes a chunk, which is queued after
    [stop_recording] has returned. *)
Lemma C3_counterexample :
  let st0 := feed (repeat Scenario.silence 45)
                  (Scenario.recording, recorder_init, Scenario.w0) in
  let st1 := capture_step (Ok Scenario.click) st0 in      (* while self.is_recording *)
  let st2 := capture_step (Ok Scenario.click) st1 in      (* data = self.stream.read *)
  let stopped := stop_recording (fst (fst st2)) (snd st2) in
  match stopped with
  | (Ok self3, w3) =>
      let st4 := capture_step (Ok Scenario.silence) (self3, snd (fst st2), w3) in
      is_recording self3 = false
      /\ stream self3 = Some StreamClosed
      /\ audio_queue self3 = []
      /\ produced self3 (snd (fst st2)) = 45%nat
      /\ produced (fst (fst st4)) (snd (fst st4)) = 46%nat
      /\ audio_queue (fst (fst st4))
         = [repeat Scenario.silence 45 ++ [Scenario.click]]
  | (Raise _, _) => False
  end.
Proof. vm_compute. repeat split. Qed.

(** ** The worker loop *)

Lemma worker_continues_false self :
  worker_continues self = false
  <-> is_transcribing self = false /\ audio_queue self = [].
Proof.
  unfold worker_continues.
  destruct (is_transcribing self), (audio_queue self); simpl; intuition congruence.
Qed.

Section Worker.

Variable env : Env.
Variable cfg : Config.t.

(** Leaving by the loop test means: flag down and queue empty. *)
Lemma worker_loop_exited fuel : forall st st',
  worker_loop env cfg fuel st = (Exited, st') ->
  is_transcribing (fst st') = false /\ audio_queue (fst st') = [].
Proof.
  induction fuel as [|fuel IH]; intros [self w] st' H; simpl in H; [discriminate|].
  destruct (worker_continues self) eqn:Hc.
  - destruct (audio_queue self) as [|c q] eqn:Hq.
    + apply IH in H. exact H.
    + destruct (process_chunk env cfg c w) as [[u|e] w1].
      * apply IH in H. exact H.
      * discriminate.
  - inversion H; subst. cbn [fst]. apply worker_continues_false. exact Hc.
Qed.

Hypothesis deletions_succeed : forall w p, unlink_error env w p = None.

(** If deleting never raises, no exception leaves [process_chunk]. *)
Lemma process_chunk_returns c w : fst (process_chunk env cfg c w) = Ok tt.
Proof.
  unfold process_chunk.
  destruct (worker_try env cfg _ c w) as [[u|e] w1]; [reflexivity|].
  destruct (exists_file _ _) eqn:E; [|reflexivity].
  unfold os_unlink. rewrite E, deletions_succeed. reflexivity.
Qed.

(** In that case a stopped worker processes the queued chunks one after
    the other, in order, and then leaves by its loop test. *)
Lemma worker_loop_drains : forall q self w,
  is_transcribing self = false -> audio_queue self = q ->
  worker_loop env cfg (S (length q)) (self, w)
  = (Exited,
     (set_audio_queue [] self,
      fold_left (fun w c => snd (process_chunk env cfg c w)) q w)).
Proof.
  induction q as [|c q IH]; intros self w Hflag Hq.
  - cbn [length worker_loop worker_iteration]. unfold worker_continues.
    rewrite Hflag, Hq. cbn [fold_left]. destruct self; simpl in *; subst; reflexivity.
  - cbn [length]. change (worker_loop env cfg (S (S (length q))) (self, w))
      with (match worker_iteration env cfg (self, w) with
            | (Running, st') => worker_loop env cfg (S (length q)) st'
            | stopped => stopped
            end).
    unfold worker_iteration, worker_continues. rewrite Hflag, Hq. cbn [orb negb].
    pose proof (process_chunk_returns c w) as Hok.
    destruct (process_chunk env cfg c w) as [[[]|e] w1] eqn:Hp; cbn [fst] in Hok;
      [|discriminate].
    rewrite (IH (set_audio_queue q self) w1); [|exact Hflag|reflexivity].
    cbn [fold_left]. rewrite Hp. reflexivity.
Qed.

End Worker.

(** C4, at the failing input.  The pipeline has been stopped with two
    chunks queued, and deleting a temporary file raises.  The first chunk is
    transcribed and printed; [os.remove] raises, the handler logs that and
    calls [os.remove] again, which raises inside the handler.  That
    exception leaves [_transcribe_audio]: the worker is gone while the second
    chunk is still in the queue, never dequeued. *)
Theorem C4_worker_dies_with_chunk_queued :
  let self := Scenario.stopped_with [[Scenario.silence]; [Scenario.click]] in
  let end_state :=
    worker_loop Scenario.env_unlink_fails Config.config 3 (self, Scenario.w0) in
  is_transcribing self = false
  /\ fst end_state
     = Died (Exception "[Errno 13] Permission denied: 'temp_chunk_1730000000.wav'")
  /\ audio_queue (fst (snd end_state)) = [[Scenario.click]]
  /\ trace (snd (snd end_state))
     = [EvCreate "temp_chunk_1730000000.wav";
        EvWrite "temp_chunk_1730000000.wav" Scenario.silence;
        EvTranscribe "temp_chunk_1730000000.wav" (worker_options Config.config);
        EvPrint "[12:00:00] ola";
        EvUnlinkFailed "temp_chunk_1730000000.wav";
        EvLog ERROR
          "Erro na transcrição: [Errno 13] Permission denied: 'temp_chunk_1730000000.wav'";
        EvUnlinkFailed "temp_chunk_1730000000.wav"].
Proof. vm_compute. repeat split. Qed.

(** ** Worked examples *)

Example splitext_nested : Py.splitext "a/b.c/Song.Final.MP3" = ("a/b.c/Song.Final", ".MP3")%string.
Proof. reflexivity. Qed.

Example splitext_hidden : Py.splitext "dir.d/.mp3" = ("dir.d/.mp3", "")%string.
Proof. reflexivity. Qed.

Example splitext_leading_dots : Py.splitext "...x.wav" = ("...x", ".wav")%string.
Proof. reflexivity. Qed.

Example str_int_values :
  Py.str_int 1730000000 = "1730000000"%string /\ Py.str_int 0 = "0"%string
  /\ Py.str_int (-7) = "-7"%string.
Proof. repeat split. Qed.

Example upper_case_extension_accepted :
  Py.contains allowed_extensions (file_extension "Take 1.WAV") = true.
Proof. reflexivity. Qed.

(** Three files, the engine failing on the second: three results, the
    second one a failure, the other two successes. *)
Example batch_of_three :
  let files := [Scenario.upload "a.wav" [Byte.x01];
                Scenario.upload "b.mp3" [];
                Scenario.upload "c.flac" [Byte.x02]] in
  map (fun item => (item_filename item, success item, error item))
      (fst (transcribe_batch Scenario.env_engine_rejects_empty files Scenario.w0))
  = [(Some "a.wav", true, None);
     (Some "b.mp3", false,
      Some "500: Erro na transcrição: Invalid data found when processing input");
     (Some "c.flac", true, None)]%string.
Proof. vm_compute. reflexivity. Qed.

(** A stopped worker with well-behaved collaborators drains its queue. *)
Example stopped_worker_drains :
  let self := Scenario.stopped_with [[Scenario.silence]; [Scenario.click]] in
  let end_state := worker_loop Scenario.env_ok Config.config 3 (self, Scenario.w0) in
  fst end_state = Exited /\ audio_queue (fst (snd end_state)) = [].
Proof. vm_compute. split; reflexivity. Qed.

(** * Further properties *)

(** ** Configuration *)

Import Settings.

Lemma validate_config_issues c :
  issues (validate_config c)
  = (if Py.contains valid_models (WHISPER_MODEL c) then []
     else [("Modelo inválido: " ++ WHISPER_MODEL c ++ ". Válidos: "
              ++ repr_list valid_models)%string])
    ++ (if Py.contains valid_devices (WHISPER_DEVICE c) then []
        else [("Device inválido: " ++ WHISPER_DEVICE c ++ ". Válidos: "
                 ++ repr_list valid_devices)%string])
    ++ (if Py.contains valid_compute_types (WHISPER_COMPUTE_TYPE c) then []
        else [("Compute type inválido: " ++ WHISPER_COMPUTE_TYPE c ++ ". Válidos: "
                 ++ repr_list valid_compute_types)%string])
    ++ (if (OMP_NUM_THREADS c <? 1) || (32 <? OMP_NUM_THREADS c)
        then [("Número de threads inválido: " ++ Py.str_int (OMP_NUM_THREADS c)
                 ++ ". Deve estar entre 1-32")%string]
        else []).
Proof.
  unfold validate_config.
  destruct (Py.contains valid_models _), (Py.contains valid_devices _),
    (Py.contains valid_compute_types _), ((_ <? 1) || _); reflexivity.
Qed.

Lemma validate_config_valid c :
  valid (validate_config c)
  = Py.contains valid_models (WHISPER_MODEL c)
    && Py.contains valid_devices (WHISPER_DEVICE c)
    && Py.contains valid_compute_types (WHISPER_COMPUTE_TYPE c)
    && negb ((OMP_NUM_THREADS c <? 1) || (32 <? OMP_NUM_THREADS c)).
Proof.
  unfold validate_config.
  destruct (Py.contains valid_models _), (Py.contains valid_devices _),
    (Py.contains valid_compute_types _), ((_ <? 1) || _); reflexivity.
Qed.

(** [validate_config] accepts exactly the configurations whose model, device
    and compute type are in the three lists and whose thread count lies in
    1..32; it reports one issue per failed check (at most four), so it
    accepts exactly when it reports none. *)
Theorem X_validate_config_accepts (c : Settings.t) :
  (valid (validate_config c) = true
   <-> In (WHISPER_MODEL c)
          ["tiny"; "base"; "small"; "medium"; "large-v3"; "distil-large-v3"]%string
       /\ In (WHISPER_DEVICE c) ["cpu"; "cuda"]%string
       /\ In (WHISPER_COMPUTE_TYPE c) ["int8"; "int16"; "float16"; "float32"]%string
       /\ 1 <= OMP_NUM_THREADS c <= 32)
  /\ (valid (validate_config c) = true <-> issues (validate_config c) = [])
  /\ (length (issues (validate_config c)) <= 4)%nat.
Proof.
  rewrite validate_config_valid, validate_config_issues.
  rewrite !andb_true_iff, negb_true_iff, orb_false_iff, !contains_In, !Z.ltb_ge.
  split; [|split].
  - unfold valid_models, valid_devices, valid_compute_types. intuition lia.
  - rewrite <- !contains_In.
    destruct (Py.contains valid_models _), (Py.contains valid_devices _),
      (Py.contains valid_compute_types _);
      destruct (OMP_NUM_THREADS c <? 1) eqn:E1, (32 <? OMP_NUM_THREADS c) eqn:E2;
      simpl; rewrite ?Z.ltb_lt, ?Z.ltb_ge in *;
      (split; [intros (((? & ?) & ?) & ? & ?); try discriminate; try lia; reflexivity
              | intros H; try discriminate H; repeat split; lia]).
  - destruct (Py.contains valid_models _), (Py.contains valid_devices _),
      (Py.contains valid_compute_types _), ((_ <? 1) || _); simpl; lia.
Qed.

Lemma dict_get_default_or_key {A} (d : list (string * A)) k default :
  dict_get d k default = default \/ In k (map fst d).
Proof.
  induction d as [|[k' v] d IH]; simpl; [left; reflexivity|].
  destruct (String.eqb_spec k' k) as [->|Hne]; [right; left; reflexivity|].
  destruct IH as [H|H]; [left; exact H | right; right; exact H].
Qed.

(** Every model that has an entry in the size table is accepted by
    [validate_config]; an accepted model without an entry, for which
    [get_model_info] answers "Desconhecido" three times, can only be
    ["distil-large-v3"]. *)
Theorem X_model_info_covers_valid_models (c : Settings.t) :
  (get_model_info c <> unknown_model -> In (WHISPER_MODEL c) valid_models)
  /\ (In (WHISPER_MODEL c) valid_models ->
      (get_model_info c = unknown_model <-> WHISPER_MODEL c = "distil-large-v3"%string)).
Proof.
  unfold get_model_info. split.
  - intros Hknown.
    destruct (dict_get_default_or_key model_sizes (WHISPER_MODEL c) unknown_model)
      as [H|H]; [contradiction|].
    simpl in H. unfold valid_models. simpl. tauto.
  - intros Hin. unfold valid_models in Hin. simpl in Hin.
    destruct Hin as [H|[H|[H|[H|[H|[H|[]]]]]]]; rewrite <- H;
      (split; [intros E | intros E]); try discriminate; reflexivity.
Qed.

Lemma X_model_info_covers_valid_models_witness :
  In (WHISPER_MODEL (get_config Cases.no_environ)) valid_models
  /\ (get_model_info (TestConfig Cases.no_environ) = unknown_model
      <-> WHISPER_MODEL (TestConfig Cases.no_environ) = "distil-large-v3"%string).
Proof.
  split.
  - apply (proj1 (X_model_info_covers_valid_models (get_config Cases.no_environ))).
    discriminate.
  - apply (proj2 (X_model_info_covers_valid_models (TestConfig Cases.no_environ))).
    simpl. tauto.
Defined.




Lemma fold_left_emit (f : string -> Event) (l : list string) : forall w,
  fold_left (fun w x => emit (f x) w) l w
  = {| fs := fs w; trace := trace w ++ map f l |}.
Proof.
  induction l as [|x l IH]; intros w; simpl.
  - rewrite app_nil_r. destruct w; reflexivity.
  - rewrite IH. simpl. rewrite <- app_assoc. reflexivity.
Qed.

(** Start-up of the API: an invalid configuration ends the process with
    exit code 1 before the model is constructed, after one error line for
    the heading and one per issue; a valid one goes on to construct the
    model, and the process never exits with a code then. *)
Theorem X_startup_refuses_invalid_config (c : Settings.t) (load_error : option exn) (w : World) :
  (valid (validate_config c) = false ->
   Api.startup c load_error w
   = (Api.SystemExit 1,
      {| fs := fs w;
         trace :=
           trace w
             ++ [EvLog INFO ("Carregando modelo Whisper: " ++ WHISPER_MODEL c)%string;
                 EvLog INFO ("Device: " ++ WHISPER_DEVICE c ++ ", Compute Type: "
                               ++ WHISPER_COMPUTE_TYPE c)%string;
                 EvLog ERROR "Configuração inválida:"]
             ++ map (fun issue => EvLog ERROR ("  - " ++ issue)%string)
                    (issues (validate_config c)) |}))
  /\ (valid (validate_config c) = true ->
      fst (Api.startup c load_error w)
      = match load_error with
        | Some e => Api.LoadFailed e
        | None => Api.ModelLoaded
        end).
Proof.
  unfold Api.startup. cbv zeta. split; intros ->; cbn [negb].
  - rewrite fold_left_emit. simpl. rewrite <- !app_assoc. reflexivity.
  - destruct load_error; reflexivity.
Qed.

Lemma X_startup_refuses_invalid_config_witness :
  fst (Api.startup (get_config Cases.odd_environ) None Scenario.w0) = Api.SystemExit 1
  /\ fst (Api.startup (get_config Cases.no_environ) None Scenario.w0) = Api.ModelLoaded.
Proof.
  split.
  - rewrite (proj1 (X_startup_refuses_invalid_config (get_config Cases.odd_environ) None Scenario.w0));
      reflexivity.
  - rewrite (proj2 (X_startup_refuses_invalid_config (get_config Cases.no_environ) None Scenario.w0));
      reflexivity.
Defined.

(** ** Uploads *)

Lemma without_idem p l : without p (without p l) = without p l.
Proof.
  unfold without. induction l as [|f l IH]; simpl; [reflexivity|].
  destruct (negb (String.eqb (fst f) p)) eqn:E; simpl; rewrite ?E, IH; reflexivity.
Qed.

Lemma exists_without p l :
  existsb (fun f : string * list Byte.byte => String.eqb (fst f) p) (without p l) = false.
Proof.
  unfold without. induction l as [|f l IH]; simpl; [reflexivity|].
  destruct (String.eqb (fst f) p) eqn:E; simpl; rewrite ?E; exact IH.
Qed.

Lemma without_absent p l :
  existsb (fun f : string * list Byte.byte => String.eqb (fst f) p) l = false ->
  without p l = l.
Proof.
  unfold without. induction l as [|f l IH]; simpl; [reflexivity|].
  intros H. apply orb_false_iff in H. destruct H as [Hf Hl].
  rewrite Hf. simpl. rewrite IH by exact Hl. reflexivity.
Qed.

(** [transcribe_audio] has four kinds of outcome and no other: a
    transcription; the no-file error, for a missing or empty filename; the
    unsupported-format error; a status-500 error whose detail is "Erro na
    transcrição: " followed by the text of the exception caught.  The two
    status-400 outcomes leave the world untouched. *)
Theorem X_upload_outcomes (env : Env) (file : UploadFile)
        (o : TranscriptionOptions) (w : World) :
  (exists r, fst (transcribe_audio env file o w) = Ok r)
  \/ (transcribe_audio env file o w
      = (Raise (HTTPException 400 "Nenhum arquivo enviado"), w)
      /\ (filename file = None \/ filename file = Some EmptyString))
  \/ (transcribe_audio env file o w = (Raise unsupported_format_error, w)
      /\ exists name, filename file = Some name
                      /\ ~ In (file_extension name) allowed_extensions)
  \/ (exists e, fst (transcribe_audio env file o w)
                = Raise (HTTPException 500 ("Erro na transcrição: " ++ str_exn e)%string)).
Proof.
  unfold transcribe_audio.
  destruct (filename file) as [name|] eqn:Hf; [|right; left; split; auto].
  destruct (String.eqb_spec name "") as [->|Hne]; [right; left; split; auto|].
  destruct (Py.contains allowed_extensions (file_extension name)) eqn:Hext; cbn [negb].
  - destruct (try_block env file name o (file_extension name) w) as [[tfp [r|e]] w1].
    + left. exists r. reflexivity.
    + right. right. right. exists e. reflexivity.
  - right. right. left. split; [reflexivity|].
    exists name. split; [reflexivity | apply contains_not_In; exact Hext].
Qed.

(** Once the payload has been written, the temporary file is gone when
    [transcribe_audio] returns, whether the engine answered or raised,
    provided deleting does not raise: the file table is the one received,
    without the temporary path. *)
Theorem X_upload_removes_temp_file
        (env : Env) (file : UploadFile) (o : TranscriptionOptions)
        (w : World) (name : string) (content : bytes) (temp : string) :
  filename file = Some name -> name <> EmptyString ->
  In (file_extension name) allowed_extensions ->
  read file = Ok content ->
  NamedTemporaryFile env w (file_extension name) = Ok temp ->
  write_error env (create_file temp w) temp content = None ->
  (forall w' p, unlink_error env w' p = None) ->
  fs (snd (transcribe_audio env file o w)) = without temp (fs w)
  /\ exists_file temp (snd (transcribe_audio env file o w)) = false.
Proof.
  intros Hf Hne Hext Hread Htemp Hwrite Hdel.
  assert (Hgoal : fs (snd (transcribe_audio env file o w)) = without temp (fs w)).
  { apply contains_In in Hext.
    unfold transcribe_audio. rewrite Hf.
    destruct (String.eqb name "") eqn:E; [apply String.eqb_eq in E; contradiction|].
    rewrite Hext. cbn [negb].
    unfold try_block. rewrite Htemp, Hread, Hwrite. cbv zeta.
    set (w3 := emit (EvTranscribe temp o) _).
    assert (Hfs : fs w3 = (temp, content) :: without temp (without temp (fs w))).
    { subst w3. unfold without. cbn [fs emit write_file create_file filter fst].
      rewrite String.eqb_refl. reflexivity. }
    assert (Hrm : os_unlink env temp w3 = (Ok tt, remove_file temp w3)).
    { unfold os_unlink, exists_file. rewrite Hfs. cbn [existsb fst].
      rewrite String.eqb_refl, Hdel. reflexivity. }
    assert (Hafter : fs (remove_file temp w3) = without temp (fs w)).
    { unfold remove_file. cbn [fs]. rewrite Hfs. cbn [filter fst].
      rewrite String.eqb_refl. cbn [negb].
      fold (without temp (without temp (without temp (fs w)))).
      rewrite !without_idem. reflexivity. }
    clearbody w3.
    destruct (model_transcribe env w3 temp o) as [[segs info]|e].
    2:{ cbn [snd]. rewrite Hrm. exact Hafter. }
    destruct (convert_segments (word_timestamps o) segs [] "") as [[sl ft]|e].
    2:{ cbn [snd]. rewrite Hrm. exact Hafter. }
    rewrite Hrm. exact Hafter. }
  split; [exact Hgoal|].
  unfold exists_file. rewrite Hgoal. apply exists_without.
Qed.

Lemma X_upload_removes_temp_file_witness :
  fs (snd (transcribe_audio Cases.env_engine_fails
             (Scenario.upload "a.wav" [Byte.x01]) default_options Scenario.w0))
  = without "/tmp/tmp0.wav" (fs Scenario.w0)
  /\ exists_file "/tmp/tmp0.wav"
       (snd (transcribe_audio Cases.env_engine_fails
               (Scenario.upload "a.wav" [Byte.x01]) default_options Scenario.w0))
     = false.
Proof.
  apply (X_upload_removes_temp_file
           Cases.env_engine_fails (Scenario.upload "a.wav" [Byte.x01])
           default_options Scenario.w0 "a.wav"%string [Byte.x01] "/tmp/tmp0.wav"%string).
  - reflexivity.
  - discriminate.
  - vm_compute. tauto.
  - reflexivity.
  - reflexivity.
  - reflexivity.
  - reflexivity.
Defined.

(** If reading the payload raises, or writing it to the temporary file
    does, [temp_file_path] is never bound: the handler answers 500 with the
    text of that exception and does not try to delete the file that
    [NamedTemporaryFile] created, which stays behind. *)
Theorem X_upload_leaves_temp_file_on_staging_error
        (env : Env) (file : UploadFile) (o : TranscriptionOptions)
        (w : World) (name : string) (temp : string) (e : exn) :
  filename file = Some name -> name <> EmptyString ->
  In (file_extension name) allowed_extensions ->
  NamedTemporaryFile env w (file_extension name) = Ok temp ->
  (read file = Raise e
   \/ exists content,
       read file = Ok content
       /\ write_error env (create_file temp w) temp content = Some e) ->
  fst (transcribe_audio env file o w)
  = Raise (HTTPException 500 ("Erro na transcrição: " ++ str_exn e)%string)
  /\ trace (snd (transcribe_audio env file o w))
     = trace w ++ [EvCreate temp;
                   EvLog ERROR ("Erro na transcrição: " ++ str_exn e)%string]
  /\ exists_file temp (snd (transcribe_audio env file o w)) = true.
Proof.
  intros Hf Hne Hext Htemp Hstage.
  assert (Hrun : transcribe_audio env file o w
                 = (Raise (HTTPException 500 ("Erro na transcrição: " ++ str_exn e)%string),
                    {| fs := (temp, []) :: without temp (fs w);
                       trace := trace w
                                  ++ [EvCreate temp;
                                      EvLog ERROR ("Erro na transcrição: "
                                                     ++ str_exn e)%string] |})).
  { apply contains_In in Hext.
    unfold transcribe_audio. rewrite Hf.
    destruct (String.eqb name "") eqn:E; [apply String.eqb_eq in E; contradiction|].
    rewrite Hext. cbn [negb].
    unfold try_block. rewrite Htemp.
    destruct Hstage as [Hread|(content & Hread & Hwrite)].
    - rewrite Hread. cbv zeta. unfold emit, create_file. cbn [fs trace].
      rewrite <- app_assoc. reflexivity.
    - rewrite Hread, Hwrite. cbv zeta. unfold emit, create_file. cbn [fs trace].
      rewrite <- app_assoc. reflexivity. }
  rewrite Hrun. split; [reflexivity|]. split; [reflexivity|].
  unfold exists_file. cbn [snd fs existsb fst].
  rewrite String.eqb_refl. reflexivity.
Qed.

Lemma X_upload_leaves_temp_file_on_staging_error_witness :
  fst (transcribe_audio Scenario.env_ok (Cases.unreadable "a.wav")
                        default_options Scenario.w0)
  = Raise (HTTPException 500 "Erro na transcrição: connection reset by peer")
  /\ trace (snd (transcribe_audio Scenario.env_ok (Cases.unreadable "a.wav")
                                  default_options Scenario.w0))
     = trace Scenario.w0
         ++ [EvCreate "/tmp/tmp0.wav";
             EvLog ERROR "Erro na transcrição: connection reset by peer"]
  /\ exists_file "/tmp/tmp0.wav"
       (snd (transcribe_audio Scenario.env_ok (Cases.unreadable "a.wav")
                              default_options Scenario.w0))
     = true.
Proof.
  apply (X_upload_leaves_temp_file_on_staging_error
           Scenario.env_ok (Cases.unreadable "a.wav") default_options Scenario.w0
           "a.wav"%string "/tmp/tmp0.wav"%string (Exception "connection reset by peer")).
  - reflexivity.
  - discriminate.
  - vm_compute. tauto.
  - reflexivity.
  - left. reflexivity.
Defined.





(** Serving a batch in one request or in two consecutive ones gives the
    same results and the same final world: the results of [a ++ b] are those
    of [a] followed by those of [b] served in the world [a] left. *)
Theorem X_batch_splits (env : Env) (a b : list UploadFile) (w : World) :
  transcribe_batch env (a ++ b) w
  = (fst (transcribe_batch env a w)
       ++ fst (transcribe_batch env b (snd (transcribe_batch env a w))),
     snd (transcribe_batch env b (snd (transcribe_batch env a w)))).
Proof.
  revert w. induction a as [|file a IH]; intros w.
  - simpl. destruct (transcribe_batch env b w); reflexivity.
  - cbn [app]. rewrite !transcribe_batch_cons. cbn [fst snd].
    rewrite IH. reflexivity.
Qed.

(** ** File names *)

Lemma string_append_nil (s : string) : (s ++ "")%string = s.
Proof. induction s as [|c s IH]; simpl; [reflexivity | rewrite IH; reflexivity]. Qed.

Lemma rfind_from_bounds c s : forall i acc,
  Py.rfind_from c s i acc = acc
  \/ i <= Py.rfind_from c s i acc < i + Z.of_nat (String.length s).
Proof.
  induction s as [|a s IH]; intros i acc; [left; reflexivity|].
  cbn [Py.rfind_from String.length]. rewrite Nat2Z.inj_succ.
  destruct (Ascii.eqb a c).
  - destruct (IH (i + 1) i) as [H|H]; rewrite ?H; right; lia.
  - destruct (IH (i + 1) acc) as [H|H]; [left; exact H | right; lia].
Qed.

Lemma substring_whole (s : string) : substring 0 (String.length s) s = s.
Proof. induction s as [|c s IH]; simpl; [reflexivity | rewrite IH; reflexivity]. Qed.

Lemma substring_split (s : string) : forall n,
  (n <= String.length s)%nat ->
  (substring 0 n s ++ substring n (String.length s - n) s)%string = s.
Proof.
  induction s as [|c s IH]; intros [|n] Hn; simpl in *; try lia; try reflexivity.
  - rewrite substring_whole. reflexivity.
  - rewrite IH by lia. reflexivity.
Qed.

(** [root + ext == path], as the library promises. *)
Lemma splitext_join (p : string) :
  (fst (Py.splitext p) ++ snd (Py.splitext p))%string = p.
Proof.
  unfold Py.splitext.
  destruct (_ && _) eqn:E; cbn [fst snd].
  - apply andb_true_iff in E. destruct E as [E _]. apply Z.ltb_lt in E.
    unfold Py.rfind in *.
    destruct (rfind_from_bounds "/" p 0 (-1)) as [Hs|Hs];
      destruct (rfind_from_bounds "." p 0 (-1)) as [Hd|Hd]; try lia.
    + unfold Py.slice_from, Py.slice, Py.len.
      set (d := Py.rfind_from "." p 0 (-1)) in *.
      replace (Z.to_nat (d - 0)) with (Z.to_nat d) by lia.
      replace (Z.to_nat (Z.of_nat (String.length p) - d))
        with (String.length p - Z.to_nat d)%nat by lia.
      change (Z.to_nat 0) with 0%nat.
      apply substring_split. lia.
    + unfold Py.slice_from, Py.slice, Py.len.
      set (d := Py.rfind_from "." p 0 (-1)) in *.
      replace (Z.to_nat (d - 0)) with (Z.to_nat d) by lia.
      replace (Z.to_nat (Z.of_nat (String.length p) - d))
        with (String.length p - Z.to_nat d)%nat by lia.
      change (Z.to_nat 0) with 0%nat.
      apply substring_split. lia.
  - rewrite slice_empty. apply string_append_nil.
Qed.

Lemma lower_char_dot (c : ascii) : Py.lower_char c = "."%char -> c = "."%char.
Proof.
  destruct c as [[] [] [] [] [] [] [] []]; vm_compute; intros H;
    try discriminate H; reflexivity.
Qed.

(** An upload that is not answered with status 400 has a filename that
    ends in a dot-extension which, lowered, is one of the six allowed. *)
Theorem X_served_name_ends_in_allowed_extension
        (env : Env) (file : UploadFile) (o : TranscriptionOptions)
        (w : World) (name : string) :
  filename file = Some name ->
  (forall detail,
      fst (transcribe_audio env file o w) <> Raise (HTTPException 400 detail)) ->
  exists root rest,
    name = (root ++ String "." rest)%string
    /\ In (Py.lower (String "." rest))
          [".mp3"; ".wav"; ".m4a"; ".ogg"; ".flac"; ".aac"]%string.
Proof.
  intros Hf Hserved.
  assert (Hext : In (file_extension name) allowed_extensions).
  { apply contains_In.
    destruct (Py.contains allowed_extensions (file_extension name)) eqn:E;
      [reflexivity|].
    exfalso. unfold transcribe_audio in Hserved. rewrite Hf in Hserved.
    destruct (String.eqb name "").
    - eapply Hserved. reflexivity.
    - rewrite E in Hserved. eapply Hserved. reflexivity. }
  unfold file_extension in Hext.
  destruct (snd (Py.splitext name)) as [|c rest] eqn:Hsnd.
  - simpl in Hext. exfalso. intuition discriminate.
  - assert (Hc : c = "."%char).
    { apply lower_char_dot. cbn [Py.lower] in Hext. unfold allowed_extensions in Hext.
      simpl in Hext.
      destruct Hext as [H|[H|[H|[H|[H|[H|[]]]]]]]; inversion H; reflexivity. }
    subst c. exists (fst (Py.splitext name)), rest. split; [|exact Hext].
    rewrite <- Hsnd. symmetry. apply splitext_join.
Qed.

Lemma X_served_name_ends_in_allowed_extension_witness :
  exists root rest,
    "Take 1.WAV"%string = (root ++ String "." rest)%string
    /\ In (Py.lower (String "." rest))
          [".mp3"; ".wav"; ".m4a"; ".ogg"; ".flac"; ".aac"]%string.
Proof.
  apply (X_served_name_ends_in_allowed_extension
           Scenario.env_ok (Scenario.upload "Take 1.WAV" [Byte.x01]) default_options
           Scenario.w0 "Take 1.WAV"%string).
  - reflexivity.
  - intros detail. vm_compute. discriminate.
Defined.













(** ** The capture thread under any schedule *)

Lemma set_audio_queue_same self : set_audio_queue (audio_queue self ++ []) self = self.
Proof. rewrite app_nil_r. destruct self; reflexivity. Qed.

Lemma capture_step_invariant dev self r w :
  accumulator_ok r ->
  exists chunks r' w',
    capture_step dev (self, r, w)
    = (set_audio_queue (audio_queue self ++ chunks) self, r', w')
    /\ accumulator_ok r'
    /\ Forall (fun c => length c = 46%nat) chunks
    /\ fs w' = fs w.
Proof.
  intros [Hcc Hlt]. unfold capture_step.
  destruct (pc r) as [| |data|] eqn:Hpc.
  - destruct (is_recording self);
      [exists [], (at_pc AtRead r), w | exists [], (at_pc Finished r), w];
      rewrite set_audio_queue_same; repeat split; auto.
  - destruct dev as [data|e].
    + exists [], (at_pc (AtAppend data) r), w.
      rewrite set_audio_queue_same; repeat split; auto.
    + eexists [], (at_pc Finished r), _.
      rewrite set_audio_queue_same; repeat split; auto.
  - unfold append_frame. rewrite frames_per_chunk_value.
    destruct (46 <=? chunk_count r + 1) eqn:E.
    + apply Z.leb_le in E.
      exists [frames r ++ [data]], {| pc := AtWhile; frames := []; chunk_count := 0 |}, w.
      split; [reflexivity|]. split; [split; simpl; lia|]. split; [|reflexivity].
      constructor; [|constructor]. rewrite length_app. simpl. lia.
    + apply Z.leb_gt in E.
      exists [], {| pc := AtWhile; frames := frames r ++ [data];
                    chunk_count := chunk_count r + 1 |}, w.
      rewrite set_audio_queue_same. split; [reflexivity|].
      split; [|split; [constructor | reflexivity]].
      split; cbn [frames chunk_count]; rewrite length_app; simpl; lia.
  - exists [], r, w. rewrite set_audio_queue_same; repeat split; auto.
Qed.

Lemma record_audio_invariant devs : forall self r w,
  accumulator_ok r ->
  exists chunks r' w',
    _record_audio devs (self, r, w)
    = (set_audio_queue (audio_queue self ++ chunks) self, r', w')
    /\ accumulator_ok r'
    /\ Forall (fun c => length c = 46%nat) chunks
    /\ fs w' = fs w.
Proof.
  induction devs as [|dev devs IH]; intros self r w Hr.
  - exists [], r, w. rewrite set_audio_queue_same.
    split; [reflexivity|]. split; [exact Hr|]. split; [constructor | reflexivity].
  - destruct (capture_step_invariant dev self r w Hr)
      as (c1 & r1 & w1 & Hstep & Hr1 & Hc1 & Hfs1).
    destruct (IH (set_audio_queue (audio_queue self ++ c1) self) r1 w1 Hr1)
      as (c2 & r2 & w2 & Hrun & Hr2 & Hc2 & Hfs2).
    exists (c1 ++ c2), r2, w2.
    split; [|split; [exact Hr2 | split; [apply Forall_app; auto | congruence]]].
    unfold _record_audio in *. cbn [fold_left]. rewrite Hstep, Hrun.
    cbn [audio_queue set_audio_queue]. rewrite <- app_assoc. reflexivity.
Qed.

(** Whatever the device returns and whenever the thread is scheduled, the
    capture thread changes nothing of the transcriber but its queue, to
    which it only ever adds chunks of exactly 46 frames; fewer than 46
    frames wait in its accumulator, and it creates or deletes no file. *)
Theorem X_capture_queues_only_full_chunks
        (devs : list (res frame)) (self : RealTimeTranscriber) (w : World) :
  exists chunks r' w',
    _record_audio devs (self, recorder_init, w)
    = (set_audio_queue (audio_queue self ++ chunks) self, r', w')
    /\ Forall (fun c => length c = 46%nat) chunks
    /\ (length (frames r') < 46)%nat
    /\ fs w' = fs w.
Proof.
  destruct (record_audio_invariant devs self recorder_init w)
    as (chunks & r' & w' & Hrun & [_ Hlt] & Hall & Hfs).
  - split; simpl; lia.
  - exists chunks, r', w'. auto.
Qed.

(** A failed device read ends capture for good.  After any number of
    frames, the first read that raises makes the thread log one error line
    and leave its loop; the frames read since the last full chunk stay in
    its accumulator and are never queued, whatever the device would return
    later, and [is_recording] is left as it was, True. *)
Theorem X_capture_stops_at_read_error
        (self : RealTimeTranscriber) (w : World) (data : list frame)
        (d : res frame) (e : exn) (later : list (res frame)) :
  is_recording self = true ->
  exists chunks r',
    _record_audio (d :: Raise e :: later) (feed data (self, recorder_init, w))
    = (set_audio_queue (audio_queue self ++ chunks) self,
       at_pc Finished r',
       emit (EvLog ERROR ("Erro na captura de áudio: " ++ str_exn e)%string) w)
    /\ is_recording (set_audio_queue (audio_queue self ++ chunks) self) = true
    /\ Forall (fun c => length c = 46%nat) chunks
    /\ (length (frames r') < 46)%nat
    /\ concat chunks ++ frames r' = data.
Proof.
  intros Hrec.
  destruct (feed_invariant data self recorder_init w Hrec between_frames_init)
    as (chunks & r' & Hfeed & (Hpc & _ & Hlt) & Hall & Hcat).
  exists chunks, r'. rewrite Hfeed.
  split; [|split; [exact Hrec | split; [exact Hall | split; [exact Hlt | exact Hcat]]]].
  unfold _record_audio. cbn [fold_left].
  unfold capture_step at 3. rewrite Hpc. cbn [is_recording set_audio_queue].
  rewrite Hrec. unfold capture_step at 2. cbn [pc at_pc].
  apply record_audio_finished. reflexivity.
Qed.

Lemma X_capture_stops_at_read_error_witness :
  exists chunks r',
    _record_audio (Ok Scenario.click :: Raise (Exception "Input overflowed")
                      :: [Ok Scenario.click; Ok Scenario.click; Ok Scenario.click])
                  (feed (repeat Scenario.silence 50)
                        (Scenario.recording, recorder_init, Scenario.w0))
    = (set_audio_queue (audio_queue Scenario.recording ++ chunks) Scenario.recording,
       at_pc Finished r',
       emit (EvLog ERROR ("Erro na captura de áudio: "
                            ++ str_exn (Exception "Input overflowed"))%string)
            Scenario.w0)
    /\ is_recording (set_audio_queue (audio_queue Scenario.recording ++ chunks)
                                     Scenario.recording) = true
    /\ Forall (fun c => length c = 46%nat) chunks
    /\ (length (frames r') < 46)%nat
    /\ concat chunks ++ frames r' = repeat Scenario.silence 50.
Proof.
  apply (X_capture_stops_at_read_error
           Scenario.recording Scenario.w0 (repeat Scenario.silence 50)
           (Ok Scenario.click) (Exception "Input overflowed")
           [Ok Scenario.click; Ok Scenario.click; Ok Scenario.click]).
  reflexivity.
Defined.

(** ** The worker thread on its own *)

Lemma worker_loop_flag_up env cfg fuel : forall self w,
  is_transcribing self = true ->
  fst (worker_loop env cfg fuel (self, w)) <> Exited
  /\ is_transcribing (fst (snd (worker_loop env cfg fuel (self, w)))) = true.
Proof.
  induction fuel as [|fuel IH]; intros self w Hup.
  - simpl. split; [discriminate | exact Hup].
  - cbn [worker_loop worker_iteration]. unfold worker_continues. rewrite Hup.
    cbn [orb]. destruct (audio_queue self) as [|c q].
    + apply IH. exact Hup.
    + destruct (process_chunk env cfg c w) as [[u|e] w1].
      * apply IH. exact Hup.
      * cbn [fst snd]. split; [discriminate | exact Hup].
Qed.

(** Run on its own, [_transcribe_audio] never leaves its loop through the
    loop test, however long it runs: its first statement raises
    [is_transcribing] and nothing in it lowers the flag.  Only
    [stop_recording], in another thread and after that first statement, can
    end it; the worker of a pipeline stopped earlier polls for ever. *)
Theorem X_worker_never_stops_itself
        (env : Env) (cfg : Config.t) (fuel : nat)
        (self : RealTimeTranscriber) (w : World) :
  fst (_transcribe_audio env cfg fuel (self, w)) <> Exited
  /\ is_transcribing (fst (snd (_transcribe_audio env cfg fuel (self, w)))) = true.
Proof.
  unfold _transcribe_audio. apply worker_loop_flag_up. reflexivity.
Qed.

Lemma worker_loop_more_fuel env cfg n : forall k st,
  fst (worker_loop env cfg n st) <> Running ->
  worker_loop env cfg (n + k) st = worker_loop env cfg n st.
Proof.
  induction n as [|n IH]; intros k st Hdone.
  - simpl in Hdone. contradiction.
  - cbn [Nat.add worker_loop] in *.
    destruct (worker_iteration env cfg st) as [[| |e] st']; try reflexivity.
    apply IH. exact Hdone.
Qed.

(** When deleting a file never raises, a stopped worker with chunks queued
    handles every one of them, in queue order, whatever the engine and the
    wave writer do, and then leaves by its loop test with the queue empty;
    [length q + 1] passes of the loop are enough and more change nothing. *)
Theorem X_stopped_worker_drains_queue
        (env : Env) (cfg : Config.t) (q : list chunk)
        (self : RealTimeTranscriber) (w : World) (extra : nat) :
  (forall w' p, unlink_error env w' p = None) ->
  is_transcribing self = false -> audio_queue self = q ->
  worker_loop env cfg (S (length q) + extra) (self, w)
  = (Exited,
     (set_audio_queue [] self,
      fold_left (fun w c => snd (process_chunk env cfg c w)) q w)).
Proof.
  intros Hdel Hflag Hq.
  pose proof (worker_loop_drains env cfg Hdel q self w Hflag Hq) as Hrun.
  rewrite worker_loop_more_fuel; [exact Hrun|].
  rewrite Hrun. discriminate.
Qed.

Lemma X_stopped_worker_drains_queue_witness :
  worker_loop Cases.env_engine_fails Config.config
              (S (length [[Scenario.silence]; [Scenario.click]]) + 4)
              (Scenario.stopped_with [[Scenario.silence]; [Scenario.click]], Scenario.w0)
  = (Exited,
     (set_audio_queue [] (Scenario.stopped_with [[Scenario.silence]; [Scenario.click]]),
      fold_left (fun w c => snd (process_chunk Cases.env_engine_fails Config.config c w))
                [[Scenario.silence]; [Scenario.click]] Scenario.w0)).
Proof.
  apply (X_stopped_worker_drains_queue
           Cases.env_engine_fails Config.config
           [[Scenario.silence]; [Scenario.click]]
           (Scenario.stopped_with [[Scenario.silence]; [Scenario.click]])
           Scenario.w0 4).
  - reflexivity.
  - reflexivity.
  - reflexivity.
Defined.

(** ** One chunk in the worker *)

Section ChunkHandling.

Variable env : Env.
Variable cfg : Config.t.

Lemma os_unlink_chunk_events p w :
  exists evs,
    trace (snd (os_unlink env p w)) = trace w ++ evs
    /\ Forall (chunk_event cfg p) evs.
Proof.
  destruct (os_unlink_trace env p w) as (evs & Ht & [->|[->| ->]]);
    eexists; (split; [exact Ht|]); repeat constructor.
Qed.

Lemma worker_try_chunk_events temp c w :
  exists evs,
    trace (snd (worker_try env cfg temp c w)) = trace w ++ evs
    /\ Forall (chunk_event cfg temp) evs.
Proof.
  unfold worker_try.
  destruct (wave_open_error env w temp) as [e|].
  1:{ exists []. split; [simpl; rewrite app_nil_r; reflexivity | constructor]. }
  cbv zeta.
  destruct (writeframes_error env (create_file temp w) temp (concat c)) as [e|].
  1:{ exists [EvCreate temp]. split; [reflexivity | repeat constructor]. }
  set (w3 := emit (EvTranscribe temp (worker_options cfg)) _).
  assert (H3 : trace w3 = trace w ++ [EvCreate temp; EvWrite temp (concat c);
                                       EvTranscribe temp (worker_options cfg)]).
  { subst w3. simpl. rewrite <- !app_assoc. reflexivity. }
  clearbody w3.
  assert (F3 : Forall (chunk_event cfg temp)
                      [EvCreate temp; EvWrite temp (concat c);
                       EvTranscribe temp (worker_options cfg)]).
  { repeat constructor. }
  destruct (model_transcribe env w3 temp (worker_options cfg)) as [[segs info]|e].
  2:{ eexists. split; [exact H3 | exact F3]. }
  destruct (String.eqb (Py.strip (String.concat "" (map seg_text segs))) ""); cbv iota.
  - destruct (os_unlink_chunk_events temp w3) as (evs & Hu & Fu).
    eexists. split; [rewrite Hu, H3, <- app_assoc; reflexivity|].
    apply Forall_app. split; assumption.
  - destruct (os_unlink_chunk_events temp (emit (EvPrint
               ("[" ++ time_strftime env w3 ++ "] "
                    ++ Py.strip (String.concat "" (map seg_text segs)))%string) w3))
      as (evs & Hu & Fu).
    eexists. split; [rewrite Hu; simpl; rewrite H3, <- !app_assoc; reflexivity|].
    apply Forall_app. split; [exact F3|]. constructor; [constructor | exact Fu].
Qed.

Lemma process_chunk_chunk_events c w :
  exists evs,
    trace (snd (process_chunk env cfg c w)) = trace w ++ evs
    /\ Forall (chunk_event cfg (temp_filename (time_time env w))) evs.
Proof.
  unfold process_chunk.
  set (temp := temp_filename (time_time env w)).
  destruct (worker_try_chunk_events temp c w) as (evs & Ht & Ft).
  destruct (worker_try env cfg temp c w) as [[u|e] w1]; cbn [snd] in *.
  - exists evs. split; assumption.
  - destruct (exists_file temp _).
    + destruct (os_unlink_chunk_events temp
                  (emit (EvLog ERROR ("Erro na transcrição: " ++ str_exn e)%string) w1))
        as (evs' & Hu & Fu).
      eexists. split; [rewrite Hu; simpl; rewrite Ht, <- !app_assoc; reflexivity|].
      apply Forall_app. split; [exact Ft|]. constructor; [constructor | exact Fu].
    + eexists. split; [simpl; rewrite Ht, <- !app_assoc; reflexivity|].
      apply Forall_app. split; [exact Ft|]. repeat constructor.
Qed.

Lemma worker_loop_events fuel : forall st,
  exists evs,
    trace (snd (snd (worker_loop env cfg fuel st))) = trace (snd st) ++ evs
    /\ Forall (worker_event cfg) evs.
Proof.
  assert (Hnil : forall w : World, exists evs,
               trace w = trace w ++ evs /\ Forall (worker_event cfg) evs).
  { intros w. exists []. split; [rewrite app_nil_r; reflexivity | constructor]. }
  induction fuel as [|fuel IH]; intros [self w]; [apply Hnil|].
  cbn [worker_loop worker_iteration snd].
  destruct (worker_continues self); [|apply Hnil].
  destruct (audio_queue self) as [|c q]; [apply (IH (self, w))|].
  destruct (process_chunk_chunk_events c w) as (evs1 & H1 & F1).
  assert (F1' : Forall (worker_event cfg) evs1).
  { eapply Forall_impl; [|exact F1]. intros ev Hev. eexists. exact Hev. }
  destruct (process_chunk env cfg c w) as [[u|e] w1]; cbn [snd] in *.
  - destruct (IH (set_audio_queue q self, w1)) as (evs2 & H2 & F2). cbn [snd] in H2.
    exists (evs1 ++ evs2). split; [rewrite H2, H1, app_assoc; reflexivity|].
    apply Forall_app. split; assumption.
  - exists evs1. split; assumption.
Qed.

Hypothesis deletions_succeed : forall w p, unlink_error env w p = None.

Lemma os_unlink_existing p w :
  exists_file p w = true -> os_unlink env p w = (Ok tt, remove_file p w).
Proof. intros H. unfold os_unlink. rewrite H, deletions_succeed. reflexivity. Qed.

Lemma exists_file_emit p ev w : exists_file p (emit ev w) = exists_file p w.
Proof. reflexivity. Qed.

(** Whichever way a chunk goes, its file is not in the table afterwards
    and no other entry has changed. *)
Lemma process_chunk_fs c w :
  fs (snd (process_chunk env cfg c w))
  = without (temp_filename (time_time env w)) (fs w).
Proof.
  unfold process_chunk.
  set (temp := temp_filename (time_time env w)).
  assert (Hhandler : forall e w1,
             fs w1 = fs w \/ (exists d, fs w1 = (temp, d) :: without temp (fs w)) ->
             fs (snd (let w2 := emit (EvLog ERROR ("Erro na transcrição: "
                                                     ++ str_exn e)%string) w1 in
                      if exists_file temp w2 then os_unlink env temp w2 else (Ok tt, w2)))
             = without temp (fs w)).
  { intros e w1 Hfs. cbv zeta. rewrite exists_file_emit.
    destruct (exists_file temp w1) eqn:Hex.
    - rewrite os_unlink_existing by (rewrite exists_file_emit; exact Hex).
      cbn [snd remove_file fs emit]. fold (without temp (fs w1)).
      destruct Hfs as [->|(d & ->)]; [reflexivity|].
      unfold without at 1. cbn [filter fst]. rewrite String.eqb_refl. cbn [negb].
      apply without_idem.
    - cbn [snd emit fs].
      destruct Hfs as [Hsame|(d & Hd)].
      + rewrite Hsame. symmetry. apply without_absent.
        unfold exists_file in Hex. rewrite Hsame in Hex. exact Hex.
      + unfold exists_file in Hex. rewrite Hd in Hex. cbn [existsb fst] in Hex.
        rewrite String.eqb_refl in Hex. discriminate. }
  assert (Hremove : forall d w1,
             fs w1 = (temp, d) :: without temp (fs w) ->
             os_unlink env temp w1 = (Ok tt, remove_file temp w1)
             /\ fs (remove_file temp w1) = without temp (fs w)).
  { intros d w1 Hfs. split.
    - apply os_unlink_existing. unfold exists_file. rewrite Hfs. cbn [existsb fst].
      rewrite String.eqb_refl. reflexivity.
    - cbn [remove_file fs]. rewrite Hfs. cbn [filter fst].
      rewrite String.eqb_refl. cbn [negb]. apply without_idem. }
  unfold worker_try.
  destruct (wave_open_error env w temp) as [e|].
  1:{ apply Hhandler. left. reflexivity. }
  cbv zeta.
  destruct (writeframes_error env (create_file temp w) temp (concat c)) as [e|].
  1:{ apply Hhandler. right. exists []. reflexivity. }
  set (w3 := emit (EvTranscribe temp (worker_options cfg)) _).
  assert (Hfs3 : fs w3 = (temp, concat c) :: without temp (fs w)).
  { subst w3. unfold without. cbn [fs emit write_file create_file filter fst].
    rewrite String.eqb_refl. cbn [negb].
    fold (without temp (fs w)). fold (without temp (without temp (fs w))).
    rewrite without_idem. reflexivity. }
  clearbody w3.
  destruct (model_transcribe env w3 temp (worker_options cfg)) as [[segs info]|e].
  2:{ apply Hhandler. right. eexists. exact Hfs3. }
  destruct (String.eqb (Py.strip (String.concat "" (map seg_text segs))) ""); cbv iota.
  - destruct (Hremove _ w3 Hfs3) as [-> Hafter]. exact Hafter.
  - destruct (Hremove (concat c)
                (emit (EvPrint ("[" ++ time_strftime env w3 ++ "] "
                                    ++ Py.strip (String.concat "" (map seg_text segs)))%string)
                      w3) Hfs3) as [-> Hafter].
    exact Hafter.
Qed.

Lemma exists_file_without p q l :
  existsb (fun f : string * list Byte.byte => String.eqb (fst f) p) (without q l) = true ->
  existsb (fun f : string * list Byte.byte => String.eqb (fst f) p) l = true.
Proof.
  unfold without. induction l as [|f l IH]; simpl; [auto|].
  destruct (negb (String.eqb (fst f) q)); simpl.
  - intros H. apply orb_true_iff in H. apply orb_true_iff.
    destruct H as [H|H]; [left; exact H | right; apply IH; exact H].
  - intros H. apply orb_true_iff. right. apply IH. exact H.
Qed.

Lemma worker_loop_fs fuel p : forall st,
  exists_file p (snd (snd (worker_loop env cfg fuel st))) = true ->
  exists_file p (snd st) = true.
Proof.
  induction fuel as [|fuel IH]; intros [self w]; [auto|].
  cbn [worker_loop worker_iteration snd].
  destruct (worker_continues self); [|auto].
  destruct (audio_queue self) as [|c q]; [apply (IH (self, w))|].
  pose proof (process_chunk_fs c w) as Hfs.
  destruct (process_chunk env cfg c w) as [[u|e] w1]; cbn [snd] in *.
  - intros H. apply IH in H. cbn [snd] in H. unfold exists_file in *.
    rewrite Hfs in H. eapply exists_file_without. exact H.
  - intros H. unfold exists_file in *. rewrite Hfs in H.
    eapply exists_file_without. exact H.
Qed.

End ChunkHandling.

(** Everything the worker loop records is of one of these kinds: a file
    operation on some [temp_chunk_<n>.wav], an engine call on such a file
    with the configured defaults (beam size, language, word timestamps, VAD
    filter) as options, a printed line, or an ERROR log line.  It never
    touches another path and never calls the engine with other options. *)
Theorem X_worker_events (env : Env) (cfg : Config.t) (fuel : nat) (st : WorkerState) :
  exists evs,
    trace (snd (snd (worker_loop env cfg fuel st))) = trace (snd st) ++ evs
    /\ Forall (fun ev =>
                 match ev with
                 | EvTranscribe p o =>
                     o = {| beam_size := Config.DEFAULT_BEAM_SIZE cfg;
                            language := Some (Config.DEFAULT_LANGUAGE cfg);
                            word_timestamps := Config.DEFAULT_WORD_TIMESTAMPS cfg;
                            vad_filter := Config.DEFAULT_VAD_FILTER cfg |}
                     /\ exists n, p = ("temp_chunk_" ++ Py.str_int n ++ ".wav")%string
                 | EvCreate p | EvWrite p _ | EvUnlink p | EvUnlinkFailed p =>
                     exists n, p = ("temp_chunk_" ++ Py.str_int n ++ ".wav")%string
                 | EvLog l _ => l = ERROR
                 | EvPrint _ => True
                 end) evs.
Proof.
  destruct (worker_loop_events env cfg fuel st) as (evs & Ht & Fe).
  exists evs. split; [exact Ht|].
  eapply Forall_impl; [|exact Fe].
  intros ev (now & Hev).
  destruct Hev; try exact I; try reflexivity;
    try (exists (Py.int now); reflexivity).
  split; [reflexivity | exists (Py.int now); reflexivity].
Qed.

(** When deleting a file never raises, handling a chunk leaves the file
    table as it was, without the chunk's path, whether the wave writer or
    the engine failed or not; so no file exists after the worker loop that
    did not exist before it. *)
Theorem X_worker_leaves_no_file (env : Env) (cfg : Config.t) :
  (forall w p, unlink_error env w p = None) ->
  (forall c w,
      fs (snd (process_chunk env cfg c w))
      = without (temp_filename (time_time env w)) (fs w))
  /\ (forall fuel st p,
         exists_file p (snd (snd (worker_loop env cfg fuel st))) = true ->
         exists_file p (snd st) = true).
Proof.
  intros Hdel. split.
  - apply process_chunk_fs. exact Hdel.
  - intros fuel st p. apply worker_loop_fs. exact Hdel.
Qed.

Lemma X_worker_leaves_no_file_witness :
  fs (snd (process_chunk Cases.env_engine_fails Config.config [Scenario.silence]
                         Scenario.w0))
  = without (temp_filename (time_time Cases.env_engine_fails Scenario.w0))
            (fs Scenario.w0)
  /\ fs (snd (snd (worker_loop Cases.env_engine_fails Config.config 5
                     (Scenario.stopped_with [[Scenario.silence]; [Scenario.click]],
                      Scenario.w0)))) = [].
Proof.
  pose proof (X_worker_leaves_no_file Cases.env_engine_fails Config.config
                                      (fun _ _ => eq_refl)) as [Hone Hloop].
  split.
  - apply Hone.
  - destruct (fs (snd (snd (worker_loop Cases.env_engine_fails Config.config 5
                     (Scenario.stopped_with [[Scenario.silence]; [Scenario.click]],
                      Scenario.w0))))) as [|[p d] l] eqn:E; [reflexivity|].
    exfalso.
    assert (H : exists_file p Scenario.w0 = true).
    { apply (Hloop 5%nat (Scenario.stopped_with [[Scenario.silence]; [Scenario.click]],
                          Scenario.w0) p).
      unfold exists_file. rewrite E. cbn [existsb fst].
      rewrite String.eqb_refl. reflexivity. }
    discriminate H.
Defined.




(** ** From the microphone to the chunk files *)



Section HandOff.

Variable env : Env.
Variable cfg : Config.t.
Hypothesis wave_opens : forall w p, wave_open_error env w p = None.
Hypothesis frames_written : forall w p d, writeframes_error env w p d = None.
Hypothesis deletions_succeed : forall w p, unlink_error env w p = None.



End HandOff.


